(** * Movistore: the AI content cache and the image / rating rendering rules

    A shallow embedding of
    - [src/services/geminiService.ts]: the localStorage read-through cache
      ([getCachedData], [setCachedData]), the client construction ([getAI])
      and the three cached fetch operations;
    - the [MovieCard] and [Hero] components: the image fallback chain and the
      match label;
    - [App]: its state, its handlers and the events of the page.

    JavaScript values are an inductive type, numbers are binary64 floats
    (the kernel's primitive floats), strings are sequences of code units
    below 256 (the module [Wide] has the key of a search on wider strings).
    The effects of the service (localStorage, the clock, the
    console, the environment and the AI backend) are threaded through an
    explicit [World] by a state-and-exception monad.  An operation runs from
    its call to its return as one step: the clock moves when the awaited
    backend call settles, and the interleaving of several operations in
    flight is not modelled. *)

From Stdlib Require Import ZArith String Ascii List Bool Floats Lia DecimalString.
From stdpp Require Import gmap strings.

Set Warnings "-register-all".
Local Open Scope string_scope.

(** ** JavaScript values *)

Module JS.

Abbreviation number := float.

Inductive value : Type :=
| VUndefined
| VNull
| VBool (b : bool)
| VNum (n : number)
| VStr (s : string)
| VArr (elems : list value)
| VObj (props : list (string * value)).

(** What [throw] carries. *)
Inductive error : Type :=
| Error (message : string)
| SyntaxError (input : string)
| TypeError (message : string)
| ReferenceError (name : string)
| QuotaExceededError
| BackendError (message : string).

(** ToBoolean *)
Definition truthy (v : value) : bool :=
  match v with
  | VUndefined | VNull => false
  | VBool b => b
  | VNum n => negb (PrimFloat.eqb n 0 || PrimFloat.is_nan n)
  | VStr s => negb (String.eqb s "")
  | VArr _ | VObj _ => true
  end.

(** Property lookup on the own properties of a parsed object.  It is only
    used with the names [data] and [timestamp], which no array, string,
    number or boolean defines: there the result is [undefined]. *)
Fixpoint assoc (k : string) (props : list (string * value)) : option value :=
  match props with
  | [] => None
  | (k', v) :: rest => if String.eqb k k' then Some v else assoc k rest
  end.

Definition Get (v : value) (k : string) : value :=
  match v with
  | VObj props => default VUndefined (assoc k props)
  | _ => VUndefined
  end.

(** [s.startsWith(p)] *)
Definition startsWith (s p : string) : bool := String.prefix p s.

(** [s.toLowerCase()] on code units below 256: the ASCII capitals and the
    Latin-1 capitals U+00C0 to U+00DE, the multiplication sign U+00D7
    excepted, move up by 32. *)
Definition lower_unit (c : ascii) : ascii :=
  let n := nat_of_ascii c in
  if (((65 <=? n) && (n <=? 90))
      || ((192 <=? n) && (n <=? 222) && negb (n =? 215)))%nat
  then ascii_of_nat (n + 32) else c.

Fixpoint toLowerCase (s : string) : string :=
  match s with
  | EmptyString => EmptyString
  | String c rest => String (lower_unit c) (toLowerCase rest)
  end.

(** The white space and line terminators of [trim] below 256: TAB, LF, VT,
    FF, CR, SP and NBSP. *)
Definition is_white (c : ascii) : bool :=
  let n := nat_of_ascii c in
  (((9 <=? n) && (n <=? 13)) || (n =? 32) || (n =? 160))%nat.

Fixpoint trimStart (s : string) : string :=
  match s with
  | EmptyString => EmptyString
  | String c rest => if is_white c then trimStart rest else s
  end.

Fixpoint trimEnd (s : string) : string :=
  match s with
  | EmptyString => EmptyString
  | String c rest =>
      match trimEnd rest with
      | EmptyString => if is_white c then EmptyString else String c EmptyString
      | kept => String c kept
      end
  end.

Definition trim (s : string) : string := trimEnd (trimStart s).

(** The builtins of the host: JSON text, the decimal form of numbers, the
    numeric value of a string and the quota of the storage area.
    [JSON_parse s = None] stands for the [SyntaxError] that [JSON.parse]
    throws; [Storage_accepts st k v = false] for the [QuotaExceededError]
    of [setItem].  Two facts of JSON come with them: the empty text is not
    JSON, and the text [[]] is the empty array. *)
Class Runtime := {
  JSON_parse : string -> option value;
  JSON_stringify : value -> string;
  Number_toString : number -> string;
  StringToNumber : string -> number;
  Storage_accepts : gmap string string -> string -> string -> bool;
  JSON_parse_empty : JSON_parse "" = None;
  JSON_parse_brackets : JSON_parse "[]" = Some (VArr [])
}.

Section Coercions.
Context `{Runtime}.

Fixpoint join (sep : string) (parts : list string) : string :=
  match parts with
  | [] => ""
  | [p] => p
  | p :: rest => p +:+ sep +:+ join sep rest
  end.

(** ToString; an array joins its elements with commas, [null] and
    [undefined] elements as empty strings. *)
Fixpoint ToString (v : value) : string :=
  match v with
  | VUndefined => "undefined"
  | VNull => "null"
  | VBool b => if b then "true" else "false"
  | VNum n => Number_toString n
  | VStr s => s
  | VArr elems =>
      join "," (map (fun e => match e with
                              | VUndefined | VNull => ""
                              | _ => ToString e
                              end) elems)
  | VObj _ => "[object Object]"
  end.

(** ToNumber, for the values on which it has a result: a primitive, and an
    array or object that takes its string from [Array.prototype.toString]
    or [Object.prototype.toString].  An object with a property [toString] of
    its own, which is not a function in parsed JSON, has no primitive value
    and the conversion throws a [TypeError]: that case is not represented
    here, and the statements below that depend on the numeric value of a
    timestamp are about primitives. *)
Definition ToNumber (v : value) : number :=
  match v with
  | VUndefined => PrimFloat.nan
  | VNull => 0%float
  | VBool b => if b then 1%float else 0%float
  | VNum n => n
  | VStr s => StringToNumber s
  | VArr _ | VObj _ => StringToNumber (ToString v)
  end.

End Coercions.

End JS.

Import JS.

(** ** The world of the service and its effects *)

Module Service.

(** The response schema sent with every request ([Type.ARRAY], ...);
    property descriptions are left out. *)
Inductive Schema : Type :=
| SInteger
| SString
| SNumber
| SArray (items : Schema)
| SObject (properties : list (string * Schema)) (required : list string).

Record Request := {
  model : string;
  contents : string;
  responseMimeType : string;
  responseSchema : Schema;
  systemInstruction : string;
  apiKey : string
}.

(** How a call of [generateContent] settles: the clock reading when the
    awaited promise settles, and either the rejection or the [text] of the
    response ([None] when the response has no text). *)
Record Reply := {
  settled_at : number;
  result : error + option string
}.

Inductive Level : Type := warn | err.

Record LogEntry := {
  level : Level;
  message : string;
  detail : option error
}.

(** [localStorage = None] is the environment without a [window].  [backend]
    answers a request from the requests made before it; [calls] records the
    invocations of the backend, oldest first. *)
Record World := {
  localStorage : option (gmap string string);
  now : number;
  API_KEY : option string;
  backend : list Request -> Request -> Reply;
  calls : list Request;
  console : list LogEntry
}.

Definition with_storage (st : gmap string string) (w : World) : World :=
  {| localStorage := Some st; now := now w; API_KEY := API_KEY w;
     backend := backend w; calls := calls w; console := console w |}.

Definition with_log (e : LogEntry) (w : World) : World :=
  {| localStorage := localStorage w; now := now w; API_KEY := API_KEY w;
     backend := backend w; calls := calls w; console := console w ++ [e] |}.

Definition with_call (r : Request) (t : number) (w : World) : World :=
  {| localStorage := localStorage w; now := t; API_KEY := API_KEY w;
     backend := backend w; calls := calls w ++ [r]; console := console w |}.

(** A computation ends normally or by a throw (for an [async] function: its
    promise is fulfilled or rejected). *)
Inductive completion (A : Type) : Type :=
| Normal (a : A)
| Throw (e : error).
Arguments Normal {A} a.
Arguments Throw {A} e.

Definition Eff (A : Type) : Type := World -> completion A * World.

#[global] Instance Eff_ret : MRet Eff := fun A a w => (Normal a, w).

#[global] Instance Eff_bind : MBind Eff := fun A B f m w =>
  match m w with
  | (Normal a, w') => f a w'
  | (Throw e, w') => (Throw e, w')
  end.

Definition throw {A : Type} (e : error) : Eff A := fun w => (Throw e, w).

Definition try_catch {A : Type} (body : Eff A) (handler : error -> Eff A)
  : Eff A := fun w =>
  match body w with
  | (Normal a, w') => (Normal a, w')
  | (Throw e, w') => handler e w'
  end.

Section Effects.
Context `{Runtime}.

(** [typeof window === 'undefined'] *)
Definition window_undefined : Eff bool := fun w =>
  (Normal (match localStorage w with None => true | Some _ => false end), w).

Definition localStorage_getItem (k : string) : Eff (option string) := fun w =>
  match localStorage w with
  | None => (Throw (ReferenceError "localStorage"), w)
  | Some st => (Normal (st !! k), w)
  end.

Definition localStorage_removeItem (k : string) : Eff unit := fun w =>
  match localStorage w with
  | None => (Throw (ReferenceError "localStorage"), w)
  | Some st => (Normal tt, with_storage (delete k st) w)
  end.

Definition localStorage_setItem (k v : string) : Eff unit := fun w =>
  match localStorage w with
  | None => (Throw (ReferenceError "localStorage"), w)
  | Some st =>
      if Storage_accepts st k v
      then (Normal tt, with_storage (<[k := v]> st) w)
      else (Throw QuotaExceededError, w)
  end.

Definition Date_now : Eff number := fun w => (Normal (now w), w).

Definition process_env_API_KEY : Eff (option string) := fun w =>
  (Normal (API_KEY w), w).

Definition console_warn (msg : string) (e : error) : Eff unit := fun w =>
  (Normal tt, with_log {| level := warn; message := msg; detail := Some e |} w).

Definition console_error (msg : string) (e : option error) : Eff unit := fun w =>
  (Normal tt, with_log {| level := err; message := msg; detail := e |} w).

Definition JSON_parse_eff (s : string) : Eff value :=
  match JSON_parse s with
  | Some v => mret v
  | None => throw (SyntaxError s)
  end.

(** [const { data, timestamp } = v]: a [TypeError] on [null] and
    [undefined], a property read on everything else. *)
Definition destructure_data_timestamp (v : value) : Eff (value * value) :=
  match v with
  | VUndefined | VNull => throw (TypeError "Cannot destructure")
  | _ => mret (Get v "data", Get v "timestamp")
  end.

(** [await ai.models.generateContent(params)] *)
Definition generateContent (params : Request) : Eff (option string) := fun w =>
  let reply := backend w (calls w) params in
  let w' := with_call params (settled_at reply) w in
  match result reply with
  | inl e => (Throw e, w')
  | inr text => (Normal text, w')
  end.

End Effects.

End Service.

Import Service.

(** ** The service: [src/services/geminiService.ts] *)

Module Gemini.

Definition CACHE_PREFIX : string := "movistore_cache_v1_".

(** [1000 * 60 * 60]: one hour in milliseconds. *)
Definition CACHE_TTL : number := (1000 * 60 * 60)%float.

Definition movieSchema : Schema :=
  SArray (SObject
    [ ("id", SInteger); ("title", SString); ("overview", SString);
      ("release_date", SString); ("vote_average", SNumber);
      ("genres", SArray SString); ("reason", SString);
      ("poster_path", SString); ("backdrop_path", SString) ]
    [ "id"; "title"; "overview"; "vote_average" ]).

Definition dquote : string := String (ascii_of_nat 34) EmptyString.

(** [{ data, timestamp }], the envelope that [setCachedData] serialises. *)
Definition envelope (data : value) (timestamp : number) : value :=
  VObj [("data", data); ("timestamp", VNum timestamp)].

(** [response.text || "[]"] *)
Definition text_or_brackets (text : option string) : string :=
  match text with
  | Some s => if String.eqb s "" then "[]" else s
  | None => "[]"
  end.

Section Operations.
Context `{Runtime}.

Definition getCachedData (key : string) : Eff value :=
  nowin ← window_undefined;
  if (nowin : bool) then mret VNull else
  try_catch
    (item ← localStorage_getItem (CACHE_PREFIX +:+ key);
     match item with
     | None => mret VNull
     | Some item =>
         if String.eqb item "" then mret VNull else
         parsed ← JSON_parse_eff item;
         dt ← destructure_data_timestamp parsed;
         t ← Date_now;
         if (CACHE_TTL <? t - ToNumber (snd dt))%float
         then localStorage_removeItem (CACHE_PREFIX +:+ key);; mret VNull
         else mret (fst dt)
     end)
    (fun e => console_warn "Error reading from cache" e;; mret VNull).

Definition setCachedData (key : string) (data : value) : Eff unit :=
  nowin ← window_undefined;
  if (nowin : bool) then mret tt else
  try_catch
    (t ← Date_now;
     localStorage_setItem (CACHE_PREFIX +:+ key)
       (JSON_stringify (envelope data t)))
    (fun e => console_warn "Error writing to cache" e).

(** The client [new GoogleGenAI({ apiKey })] is its key. *)
Definition getAI : Eff string :=
  k ← process_env_API_KEY;
  match k with
  | Some key =>
      if String.eqb key "" then
        console_error "API Key missing" None;;
        throw (Error "API Key is missing. Please set it in the environment.")
      else mret key
  | None =>
      console_error "API Key missing" None;;
      throw (Error "API Key is missing. Please set it in the environment.")
  end.

Definition trending_request (ai : string) : Request :=
  {| model := "gemini-3-flash-preview";
     contents := "Generate a list of 10 currently trending or highly rated movies (mix of Action, Sci-Fi, Drama) released in the last 5 years. You MUST include valid TMDB poster_path and backdrop_path strings for each movie (e.g., starting with '/'). Provide JSON.";
     responseMimeType := "application/json";
     responseSchema := movieSchema;
     systemInstruction := "You are a movie database API. Return accurate movie data including real TMDB image paths. Do not hallucinate paths; if unknown, leave empty.";
     apiKey := ai |}.

Definition fetchTrendingMoviesAI : Eff value :=
  let cacheKey := "trending_movies" in
  cached ← getCachedData cacheKey;
  if truthy cached then mret cached else
  try_catch
    (ai ← getAI;
     text ← generateContent (trending_request ai);
     data ← JSON_parse_eff (text_or_brackets text);
     setCachedData cacheKey data;;
     mret data)
    (fun e => console_error "AI Fetch Error:" (Some e);; mret (VArr [])).

Definition category_prompt (category : string) : string :=
  if String.eqb category "tv" then
    "Generate a list of 10 trending TV Shows and Series from the last 3 years. Ensure they are TV shows, not movies."
  else if String.eqb category "movies" then
    "Generate a list of 10 highly acclaimed Movies from various genres (Action, Drama, Comedy) released recently."
  else if String.eqb category "new" then
    "Generate a list of 10 New & Popular releases (Movies or TV) that are currently creating buzz globally."
  else if String.eqb category "web" then
    "Generate a list of 10 popular Web Series (Netflix Originals, Amazon Prime Originals, etc.) that are trending."
  else "Generate a list of 10 trending movies.".

Definition category_request (category ai : string) : Request :=
  {| model := "gemini-3-flash-preview";
     contents := category_prompt category +:+ " You MUST include valid TMDB poster_path and backdrop_path strings for each item.";
     responseMimeType := "application/json";
     responseSchema := movieSchema;
     systemInstruction := "You are a movie and TV database API. Return accurate data including real TMDB image paths. Do not hallucinate paths.";
     apiKey := ai |}.

Definition fetchCategoryContent (category : string) : Eff value :=
  let cacheKey := "category_" +:+ category in
  cached ← getCachedData cacheKey;
  if truthy cached then mret cached else
  try_catch
    (ai ← getAI;
     text ← generateContent (category_request category ai);
     data ← JSON_parse_eff (text_or_brackets text);
     setCachedData cacheKey data;;
     mret data)
    (fun e => console_error "AI Category Fetch Error:" (Some e);; mret (VArr [])).

Definition search_request (query ai : string) : Request :=
  {| model := "gemini-3-flash-preview";
     contents := "User Query: " +:+ dquote +:+ query +:+ dquote +:+ ". Suggest 8 movies that match this query. It could be a mood, a genre, a specific actor, or a plot description. Include valid TMDB poster_path and backdrop_path strings.";
     responseMimeType := "application/json";
     responseSchema := movieSchema;
     systemInstruction := "You are an intelligent movie recommendation engine. Understand nuance (e.g., 'sad movies' -> drama, 'mind bending' -> thriller). Include a 'reason' for the recommendation. Ensure image paths are accurate real TMDB paths.";
     apiKey := ai |}.

Definition searchMoviesAI (query : string) : Eff value :=
  let cacheKey := "search_" +:+ trim (toLowerCase query) in
  cached ← getCachedData cacheKey;
  if truthy cached then mret cached else
  try_catch
    (ai ← getAI;
     text ← generateContent (search_request query ai);
     data ← JSON_parse_eff (text_or_brackets text);
     setCachedData cacheKey data;;
     mret data)
    (fun e => console_error "AI Search Error:" (Some e);; mret (VArr [])).

End Operations.

(** The content kinds of the three cached operations, with the cache key,
    the request and the log label that each of them uses. *)
Inductive Kind : Type :=
| Trending
| Category (category : string)
| Search (query : string).

Definition cacheKey (k : Kind) : string :=
  match k with
  | Trending => "trending_movies"
  | Category category => "category_" +:+ category
  | Search query => "search_" +:+ trim (toLowerCase query)
  end.

Definition request (k : Kind) (ai : string) : Request :=
  match k with
  | Trending => trending_request ai
  | Category category => category_request category ai
  | Search query => search_request query ai
  end.

Definition error_label (k : Kind) : string :=
  match k with
  | Trending => "AI Fetch Error:"
  | Category _ => "AI Category Fetch Error:"
  | Search _ => "AI Search Error:"
  end.

Definition fetch `{Runtime} (k : Kind) : Eff value :=
  match k with
  | Trending => fetchTrendingMoviesAI
  | Category category => fetchCategoryContent category
  | Search query => searchMoviesAI query
  end.

End Gemini.

Import Gemini.

(** ** The read-through algorithm shared by the three operations *)

Module ReadThrough.

Section Generic.
Context `{Runtime}.

(** The miss path: build the client, call the backend, parse, store. *)
Definition refill (key : string) (req : string -> Request) (label : string)
  : Eff value :=
  try_catch
    (ai ← getAI;
     text ← generateContent (req ai);
     data ← JSON_parse_eff (text_or_brackets text);
     setCachedData key data;;
     mret data)
    (fun e => console_error label (Some e);; mret (VArr [])).

Definition read_through (key : string) (req : string -> Request)
  (label : string) : Eff value :=
  cached ← getCachedData key;
  if truthy cached then mret cached else refill key req label.

End Generic.

End ReadThrough.

Import ReadThrough.

(** ** The components: [MovieCard] and [Hero] *)

Module UI.

(** [interface Movie] *)
Record Movie := {
  id : number;
  title : string;
  overview : string;
  poster_path : option string;
  backdrop_path : option string;
  release_date : string;
  vote_average : number;
  genre_ids : option (list number);
  genres : option (list string);
  reason : option string
}.

Definition Z2F (z : Z) : number :=
  SF2Prim (binary_normalize prec emax z 0 false).

(** [Math.round]: a number that is not finite or is integral is returned as
    it is; a negative number down to -0.5 gives -0; every other number
    gives the integer closest to it, the one toward +infinity at a tie.  The
    value of a finite float with a negative exponent [e] is [n / 2^(-e)]
    for the signed mantissa [n]. *)
Definition Math_round (x : number) : number :=
  match Prim2SF x with
  | S754_finite s m e =>
      if (0 <=? e)%Z then x
      else
        let d := (2 ^ (- e))%Z in
        let n := if s then Z.neg m else Z.pos m in
        let r := ((2 * n + d) / (2 * d))%Z in
        if (r =? 0)%Z then (if s then (-0)%float else 0%float) else Z2F r
  | _ => x
  end.

(** The children of a JSX element: expressions that are numbers, and text. *)
Inductive Child : Type :=
| CNum (n : number)
| CText (s : string).

(** [p && p.startsWith(prefix)] for a path that is [null] or a string *)
Definition path_startsWith (path : option string) (prefix : string) : bool :=
  match path with
  | Some p => negb (String.eqb p "") && startsWith p prefix
  | None => false
  end.

Record MovieCardState := {
  isHovered : bool;
  imgSrc : string
}.

Inductive MovieCardEvent : Type :=
| CardEffect
| CardImageError
| CardMouseEnter
| CardMouseLeave.

Record MovieCardView := {
  card_img_src : string;
  card_match : option (list Child)
}.

Record HeroState := { bgSrc : string }.

Inductive HeroEvent : Type :=
| HeroEffect
| HeroImageError.

Inductive HeroView : Type :=
| HeroLoading
| HeroBanner (img_src : string) (match_label : list Child) (heading : string).

Section Components.
Context `{Runtime}.

(** The text that React writes for a list of children. *)
Definition children_text (cs : list Child) : string :=
  fold_right
    (fun c acc => match c with
                  | CNum n => Number_toString n +:+ acc
                  | CText s => s +:+ acc
                  end) "" cs.

Definition MovieCard_initial : MovieCardState :=
  {| isHovered := false; imgSrc := "" |}.

(** The body of the [useEffect] of [MovieCard]: the argument of
    [setImgSrc]. *)
Definition MovieCard_effect (movie : Movie) : string :=
  if path_startsWith (poster_path movie) "/" then
    "https://image.tmdb.org/t/p/w500" +:+ default "" (poster_path movie)
  else if path_startsWith (poster_path movie) "http" then
    default "" (poster_path movie)
  else
    "https://picsum.photos/seed/" +:+ Number_toString (id movie) +:+ "/300/450".

Definition handleImageError (movie : Movie) : string :=
  "https://picsum.photos/seed/" +:+ Number_toString (id movie) +:+ "/300/450".

Definition MovieCard_step (movie : Movie) (s : MovieCardState)
  (e : MovieCardEvent) : MovieCardState :=
  match e with
  | CardEffect => {| isHovered := isHovered s; imgSrc := MovieCard_effect movie |}
  | CardImageError => {| isHovered := isHovered s; imgSrc := handleImageError movie |}
  | CardMouseEnter => {| isHovered := true; imgSrc := imgSrc s |}
  | CardMouseLeave => {| isHovered := false; imgSrc := imgSrc s |}
  end.

(** The image and, on the hovered card, the match label
    [{Math.round(movie.vote_average * 10)}% Match]. *)
Definition MovieCard_render (movie : Movie) (s : MovieCardState)
  : MovieCardView :=
  {| card_img_src := imgSrc s;
     card_match :=
       if isHovered s
       then Some [CNum (Math_round (vote_average movie * 10)%float);
                  CText "% Match"]
       else None |}.

Definition Hero_initial : HeroState := {| bgSrc := "" |}.

Definition Hero_placeholder (movie : Movie) : string :=
  "https://picsum.photos/seed/" +:+ (Number_toString (id movie) +:+ "backdrop")
    +:+ "/1920/1080".

(** The body of the [useEffect] of [Hero]; without a movie the state is
    left as it is. *)
Definition Hero_effect (movie : option Movie) (s : HeroState) : HeroState :=
  match movie with
  | Some movie =>
      if path_startsWith (backdrop_path movie) "/" then
        {| bgSrc := "https://image.tmdb.org/t/p/original"
                      +:+ default "" (backdrop_path movie) |}
      else if path_startsWith (backdrop_path movie) "http" then
        {| bgSrc := default "" (backdrop_path movie) |}
      else {| bgSrc := Hero_placeholder movie |}
  | None => s
  end.

Definition Hero_step (movie : option Movie) (s : HeroState) (e : HeroEvent)
  : HeroState :=
  match e with
  | HeroEffect => Hero_effect movie s
  | HeroImageError =>
      match movie with
      | Some movie => {| bgSrc := Hero_placeholder movie |}
      | None => s
      end
  end.

(** The banner shows the literal text [98% Match]. *)
Definition Hero_render (movie : option Movie) (s : HeroState) : HeroView :=
  match movie with
  | None => HeroLoading
  | Some movie => HeroBanner (bgSrc s) [CText "98% Match"] (title movie)
  end.

(** The thumbnails of the watching history in [App]:
    [poster_path?.startsWith('/') ? host + poster_path : poster_path || ''],
    an expression of its own, without a placeholder. *)
Definition History_thumbnail_src (movie : Movie) : string :=
  match poster_path movie with
  | Some p =>
      if startsWith p "/" then "https://image.tmdb.org/t/p/w200" +:+ p
      else if String.eqb p "" then "" else p
  | None => ""
  end.

(** The text of the match label of a banner. *)
Definition Hero_match (v : HeroView) : list Child :=
  match v with
  | HeroLoading => []
  | HeroBanner _ label _ => label
  end.

End Components.

End UI.

(** ** Queries that differ in case and in outer white space *)

Module Normalize.

Definition is_capital (c : ascii) : bool :=
  let n := nat_of_ascii c in
  (((65 <=? n) && (n <=? 90))
   || ((192 <=? n) && (n <=? 222) && negb (n =? 215)))%nat.

Fixpoint all_white (s : string) : bool :=
  match s with
  | EmptyString => true
  | String c rest => is_white c && all_white rest
  end.

(** Two strings that differ in the case of letters only: unit by unit they
    are the same, or one is a capital and the other the unit 32 above it. *)
Inductive case_variant : string -> string -> Prop :=
| case_variant_nil : case_variant "" ""
| case_variant_same c s t :
    case_variant s t -> case_variant (String c s) (String c t)
| case_variant_lower c s t :
    is_capital c = true -> case_variant s t ->
    case_variant (String c s) (String (ascii_of_nat (nat_of_ascii c + 32)) t)
| case_variant_upper c s t :
    is_capital c = true -> case_variant s t ->
    case_variant (String (ascii_of_nat (nat_of_ascii c + 32)) s) (String c t).

(** Two queries that are equal up to letter case and up to white space at
    both ends. *)
Inductive same_query : string -> string -> Prop :=
| same_query_intro l1 c1 r1 l2 c2 r2 :
    all_white l1 = true -> all_white r1 = true ->
    all_white l2 = true -> all_white r2 = true ->
    case_variant c1 c2 ->
    same_query (l1 +:+ c1 +:+ r1) (l2 +:+ c2 +:+ r2).


End Normalize.

Import Normalize.

(** ** Queries beyond Latin-1

    The key of a search on strings of UTF-16 code units, for the two
    alphabets whose lower case this development has: the units below 256,
    where [toLowerCase] is the one above, and the Greek letters from alpha
    to omega with the space.  There a capital gives the small letter 32
    above it, except that a capital sigma gives the final sigma when a
    letter comes before it and none after it: the rule [Final_Sigma] of the
    Unicode special casing, the one context rule that
    [String.prototype.toLowerCase] applies.  In these alphabets every letter
    is cased and no unit is case-ignorable.  On any other string the result
    is [None]: its case mapping is not in this table. *)

Module Wide.

Definition wstring : Type := list N.

Definition of_string (s : string) : wstring :=
  map N_of_ascii (list_ascii_of_string s).

Definition narrow (u : N) : bool := (u <? 256)%N.

(** U+0391 to U+03A9, U+03A2 being unassigned; U+03B1 to U+03C9. *)
Definition greek_capital (u : N) : bool :=
  (((913 <=? u) && (u <=? 929)) || ((931 <=? u) && (u <=? 937)))%N.

Definition greek_small (u : N) : bool := ((945 <=? u) && (u <=? 969))%N.

Definition greek_letter (u : N) : bool := greek_capital u || greek_small u.

Definition capital_sigma : N := 931.
Definition final_sigma : N := 962.
Definition small_sigma : N := 963.

(** The lower case of a string of Greek letters and spaces;
    [after_letter] says whether the unit before is a letter. *)
Fixpoint lower_greek (after_letter : bool) (w : wstring) : wstring :=
  match w with
  | [] => []
  | u :: rest =>
      let before_letter :=
        match rest with
        | v :: _ => greek_letter v
        | [] => false
        end in
      let lowered :=
        if (u =? capital_sigma)%N then
          if after_letter && negb before_letter then final_sigma
          else small_sigma
        else if greek_capital u then (u + 32)%N
        else u in
      lowered :: lower_greek (greek_letter u) rest
  end.

Definition toLowerCase (w : wstring) : option wstring :=
  if forallb narrow w then
    Some (map (fun u => N_of_ascii (lower_unit (ascii_of_N u))) w)
  else if forallb (fun u => greek_letter u || (u =? 32)%N) w then
    Some (lower_greek false w)
  else None.

(** The white space of [trim] in the two alphabets. *)
Definition white (u : N) : bool := narrow u && is_white (ascii_of_N u).

Fixpoint trimStart (w : wstring) : wstring :=
  match w with
  | [] => []
  | u :: rest => if white u then trimStart rest else w
  end.

Fixpoint trimEnd (w : wstring) : wstring :=
  match w with
  | [] => []
  | u :: rest =>
      match trimEnd rest with
      | [] => if white u then [] else [u]
      | kept => u :: kept
      end
  end.

Definition trim (w : wstring) : wstring := trimEnd (trimStart w).

(** [`search_${query.toLowerCase().trim()}`], the cache key of
    [searchMoviesAI]. *)
Definition cacheKey (query : wstring) : option wstring :=
  lowered ← toLowerCase query;
  Some (of_string "search_" ++ trim lowered)%list.

(** Equality up to letter case and outer white space, as in [Normalize]:
    a capital and the unit 32 above it. *)
Definition is_capital (u : N) : bool :=
  (narrow u && Normalize.is_capital (ascii_of_N u)) || greek_capital u.

Inductive case_variant : wstring -> wstring -> Prop :=
| case_variant_nil : case_variant [] []
| case_variant_same u s t :
    case_variant s t -> case_variant (u :: s) (u :: t)
| case_variant_lower u s t :
    is_capital u = true -> case_variant s t ->
    case_variant (u :: s) ((u + 32)%N :: t)
| case_variant_upper u s t :
    is_capital u = true -> case_variant s t ->
    case_variant ((u + 32)%N :: s) (u :: t).

Inductive same_query : wstring -> wstring -> Prop :=
| same_query_intro l1 c1 r1 l2 c2 r2 :
    forallb white l1 = true -> forallb white r1 = true ->
    forallb white l2 = true -> forallb white r2 = true ->
    case_variant c1 c2 ->
    same_query (l1 ++ c1 ++ r1)%list (l2 ++ c2 ++ r2)%list.

End Wide.

(** ** A reference runtime

    JSON text, the decimal form of numbers and a storage quota, written out
    so that the operations can be run.  Numbers are read and printed with
    exact integer arithmetic: a decimal is rounded once to the nearest float,
    and a float is printed with the fewest digits that read back as it.
    Within a string the units stay below 256: an escape [\u] of a larger unit
    is not read.  An object keeps its names in the order of the text, also the
    names that are array indices, which JavaScript lists first. *)

Module Reference.

Definition unit_is (c : ascii) (n : nat) : bool := (nat_of_ascii c =? n)%nat.

Definition is_digit (c : ascii) : bool :=
  ((48 <=? nat_of_ascii c) && (nat_of_ascii c <=? 57))%nat.

Definition digit_value (c : ascii) : Z := Z.of_nat (nat_of_ascii c - 48).

Definition digits_of (z : Z) : string :=
  NilZero.string_of_uint (N.to_uint (Z.to_N z)).

Fixpoint zeros (n : nat) : string :=
  match n with
  | O => ""
  | S n => String "0" (zeros n)
  end.

Fixpoint take (n : nat) (s : string) : string :=
  match n, s with
  | S n, String c rest => String c (take n rest)
  | _, _ => ""
  end.

Fixpoint drop (n : nat) (s : string) : string :=
  match n, s with
  | S n, String _ rest => drop n rest
  | _, _ => s
  end.

(** *** Decimal to number *)

(** [sig * 10^pow], rounded to the nearest float, ties to even.  Beyond
    [10^310] the result is infinite, below [10^-330] it is zero. *)
Definition decimal_to_number (negative : bool) (sig pow : Z) : number :=
  match sig with
  | Z.pos m =>
      let digits := Z.of_nat (String.length (digits_of sig)) in
      if (310 <? pow)%Z then (if negative then neg_infinity else infinity)
      else if (pow + digits <? -330)%Z
      then (if negative then (-0)%float else 0%float)
      else if (0 <=? pow)%Z then
        SF2Prim (binary_normalize prec emax
                   ((if negative then Z.neg m else Z.pos m) * 10 ^ pow) 0 false)
      else
        match (10 ^ (- pow))%Z with
        | Z.pos d => SF2Prim (SFdiv prec emax (S754_finite negative m 0)
                                (S754_finite false d 0))
        | _ => nan
        end
  | _ => if negative then (-0)%float else 0%float
  end.

(** *** Number to decimal: [Number::toString] *)

(** The least [j >= 1] with [num * 10^j >= den], for [0 < num < den]. *)
Fixpoint leading_zeros (fuel : nat) (num den j : Z) : Z :=
  match fuel with
  | O => j
  | S fuel => if (den <=? num * 10 ^ j)%Z then j
              else leading_zeros fuel num den (j + 1)
  end.

(** [n] with [10^(n-1) <= num/den < 10^n]. *)
Definition magnitude (num den : Z) : Z :=
  if (den <=? num)%Z then Z.of_nat (String.length (digits_of (num / den)))
  else 1 - leading_zeros 400 num den 1.

(** [floor (num/den / 10^p)] *)
Definition scaled_floor (num den p : Z) : Z :=
  if (0 <=? p)%Z then (num / (den * 10 ^ p))%Z
  else ((num * 10 ^ (- p)) / den)%Z.

(** Is [num/den] closer to [s * 10^p] than to [(s+1) * 10^p] ([Lt]), as
    close ([Eq]) or farther ([Gt])? *)
Definition nearer (num den s p : Z) : comparison :=
  if (0 <=? p)%Z then (2 * num ?= (2 * s + 1) * 10 ^ p * den)%Z
  else (2 * num * 10 ^ (- p) ?= (2 * s + 1) * den)%Z.

(** The shortest digits of [x = num/den]: for the least number [k] of
    digits, the integer [s] of [k] digits and the exponent [n] such that
    [s * 10^(n-k)] reads back as [x]; of two such integers the closer one,
    the even one at a tie. *)
Fixpoint shortest (fuel : nat) (x : number) (num den n k : Z) : Z * Z :=
  let p := (n - k)%Z in
  let lo := scaled_floor num den p in
  let hi := (lo + 1)%Z in
  let lo_ok := PrimFloat.eqb (decimal_to_number false lo p) x in
  let hi_ok := PrimFloat.eqb (decimal_to_number false hi p) x in
  let up := if (hi =? 10 ^ k)%Z then (10 ^ (k - 1), n + 1)%Z else (hi, n) in
  match fuel with
  | O => (lo, n)
  | S fuel =>
      match lo_ok, hi_ok with
      | true, true =>
          match nearer num den lo p with
          | Lt => (lo, n)
          | Gt => up
          | Eq => if Z.even lo then (lo, n) else up
          end
      | true, false => (lo, n)
      | false, true => up
      | false, false => shortest fuel x num den n (k + 1)
      end
  end.

Definition format_digits (s n : Z) : string :=
  let ds := digits_of s in
  let k := Z.of_nat (String.length ds) in
  if ((k <=? n) && (n <=? 21))%Z then ds +:+ zeros (Z.to_nat (n - k))
  else if ((0 <? n) && (n <=? 21))%Z then
    take (Z.to_nat n) ds +:+ "." +:+ drop (Z.to_nat n) ds
  else if ((-6 <? n) && (n <=? 0))%Z then
    "0." +:+ zeros (Z.to_nat (- n)) +:+ ds
  else
    let e := (n - 1)%Z in
    let mantissa :=
      if (k =? 1)%Z then ds else take 1 ds +:+ "." +:+ drop 1 ds in
    mantissa +:+ "e" +:+ (if (e <? 0)%Z then "-" else "+")
      +:+ digits_of (Z.abs e).

Definition number_to_string (x : number) : string :=
  match Prim2SF x with
  | S754_zero _ => "0"
  | S754_infinity s => if s then "-Infinity" else "Infinity"
  | S754_nan => "NaN"
  | S754_finite s m e =>
      let num := if (0 <=? e)%Z then (Z.pos m * 2 ^ e)%Z else Z.pos m in
      let den := if (0 <=? e)%Z then 1%Z else (2 ^ (- e))%Z in
      let sn := shortest 17 (abs x) num den (magnitude num den) 1 in
      (if s then "-" else "") +:+ format_digits sn.1 sn.2
  end.

(** *** [JSON.stringify] *)

Definition hex_digit (n : nat) : ascii :=
  nth n (list_ascii_of_string "0123456789abcdef") "0"%char.

Definition backslash : ascii := ascii_of_nat 92.

(** QuoteJSONString, unit by unit. *)
Definition quote_unit (c : ascii) : string :=
  let n := nat_of_ascii c in
  if (n =? 34)%nat then String backslash dquote
  else if (n =? 92)%nat then String backslash (String backslash "")
  else if (n =? 8)%nat then String backslash "b"
  else if (n =? 12)%nat then String backslash "f"
  else if (n =? 10)%nat then String backslash "n"
  else if (n =? 13)%nat then String backslash "r"
  else if (n =? 9)%nat then String backslash "t"
  else if (n <? 32)%nat then
    String backslash ("u00" +:+ String (hex_digit (n / 16))
                                 (String (hex_digit (n mod 16)) ""))
  else String c "".

Fixpoint quote_units (s : string) : string :=
  match s with
  | EmptyString => ""
  | String c rest => quote_unit c +:+ quote_units rest
  end.

Definition quote (s : string) : string := dquote +:+ quote_units s +:+ dquote.

(** SerializeJSONProperty: [None] is the [undefined] that leaves a property
    out of its object and is written [null] in an array. *)
Fixpoint serialize (v : value) : option string :=
  match v with
  | VUndefined => None
  | VNull => Some "null"
  | VBool b => Some (if b then "true" else "false")
  | VNum n =>
      Some (match Prim2SF n with
            | S754_nan | S754_infinity _ => "null"
            | _ => number_to_string n
            end)
  | VStr s => Some (quote s)
  | VArr elems =>
      Some ("[" +:+ join "," (map (fun e => default "null" (serialize e)) elems)
            +:+ "]")
  | VObj props =>
      Some ("{" +:+ join ","
              (omap (fun kv => match kv with
                               | (k, x) =>
                                   match serialize x with
                                   | Some text => Some (quote k +:+ ":" +:+ text)
                                   | None => None
                                   end
                               end) props)
            +:+ "}")
  end.

(** [JSON.stringify(v)], as the text that [setItem] stores. *)
Definition stringify (v : value) : string := default "undefined" (serialize v).

(** *** [JSON.parse] *)

Definition is_json_white (c : ascii) : bool :=
  unit_is c 32 || unit_is c 9 || unit_is c 10 || unit_is c 13.

Fixpoint skip_white (s : string) : string :=
  match s with
  | EmptyString => EmptyString
  | String c rest => if is_json_white c then skip_white rest else s
  end.

(** The digits at the head of a text, and what follows them. *)
Fixpoint span_digits (s : string) : string * string :=
  match s with
  | EmptyString => ("", "")
  | String c rest =>
      if is_digit c
      then let dr := span_digits rest in (String c dr.1, dr.2)
      else ("", s)
  end.

Fixpoint digits_value (acc : Z) (s : string) : Z :=
  match s with
  | EmptyString => acc
  | String c rest => digits_value (10 * acc + digit_value c) rest
  end.

(** An optional part that starts with a mark: [frac] after a point, [exp]
    after [e] or [E]. *)
Definition fraction_part (s : string) : option (string * string) :=
  match s with
  | String "." rest =>
      let dr := span_digits rest in
      if String.eqb dr.1 "" then None else Some dr
  | _ => Some ("", s)
  end.

Definition signed_digits (s : string) : option (Z * string) :=
  let '(negative, body) :=
    match s with
    | String "-" rest => (true, rest)
    | String "+" rest => (false, rest)
    | _ => (false, s)
    end in
  let dr := span_digits body in
  if String.eqb dr.1 "" then None
  else Some (if negative then (- digits_value 0 dr.1)%Z else digits_value 0 dr.1,
             dr.2).

Definition exponent_part (s : string) : option (Z * string) :=
  match s with
  | String "e" rest | String "E" rest => signed_digits rest
  | _ => Some (0%Z, s)
  end.

(** A JSON number: [-? int frac? exp?], the integer part without a leading
    zero. *)
Definition parse_number (s : string) : option (number * string) :=
  let '(negative, body) :=
    match s with
    | String "-" rest => (true, rest)
    | _ => (false, s)
    end in
  let ir := span_digits body in
  if String.eqb ir.1 "" then None
  else if (1 <? String.length ir.1)%nat && String.prefix "0" ir.1 then None
  else
    match fraction_part ir.2 with
    | None => None
    | Some fr =>
        match exponent_part fr.2 with
        | None => None
        | Some er =>
            Some (decimal_to_number negative
                    (digits_value 0 (ir.1 +:+ fr.1))
                    (er.1 - Z.of_nat (String.length fr.1)),
                  er.2)
        end
    end.

Definition hex_value (c : ascii) : option nat :=
  let n := nat_of_ascii c in
  if ((48 <=? n) && (n <=? 57))%nat then Some (n - 48)
  else if ((97 <=? n) && (n <=? 102))%nat then Some (n - 87)
  else if ((65 <=? n) && (n <=? 70))%nat then Some (n - 55)
  else None.

Definition escaped_unit (h1 h2 h3 h4 : ascii) : option ascii :=
  match hex_value h1, hex_value h2, hex_value h3, hex_value h4 with
  | Some 0, Some 0, Some c, Some d => Some (ascii_of_nat (16 * c + d))
  | _, _, _, _ => None
  end.

(** The units of a string up to its closing quote, and what follows it. *)
Fixpoint parse_string_units (s : string) : option (string * string) :=
  match s with
  | EmptyString => None
  | String c rest =>
      if unit_is c 34 then Some ("", rest)
      else if unit_is c 92 then
        match rest with
        | String e rest' =>
            let simple (u : ascii) :=
              match parse_string_units rest' with
              | Some ur => Some (String u ur.1, ur.2)
              | None => None
              end in
            if unit_is e 34 then simple e
            else if unit_is e 92 then simple e
            else if unit_is e 47 then simple e
            else if unit_is e 98 then simple (ascii_of_nat 8)
            else if unit_is e 102 then simple (ascii_of_nat 12)
            else if unit_is e 110 then simple (ascii_of_nat 10)
            else if unit_is e 114 then simple (ascii_of_nat 13)
            else if unit_is e 116 then simple (ascii_of_nat 9)
            else if unit_is e 117 then
              match rest' with
              | String h1 (String h2 (String h3 (String h4 rest''))) =>
                  match escaped_unit h1 h2 h3 h4, parse_string_units rest'' with
                  | Some u, Some ur => Some (String u ur.1, ur.2)
                  | _, _ => None
                  end
              | _ => None
              end
            else None
        | EmptyString => None
        end
      else if (nat_of_ascii c <? 32)%nat then None
      else
        match parse_string_units rest with
        | Some ur => Some (String c ur.1, ur.2)
        | None => None
        end
  end.

(** A property set on a parsed object: a name that is there already keeps
    its place and takes the new value. *)
Fixpoint set_prop (k : string) (v : value) (props : list (string * value))
  : list (string * value) :=
  match props with
  | [] => [(k, v)]
  | (k', v') :: rest =>
      if String.eqb k k' then (k, v) :: rest else (k', v') :: set_prop k v rest
  end.

Definition expect (word : string) (v : value) (s : string)
  : option (value * string) :=
  if String.prefix word s then Some (v, drop (String.length word) s) else None.

Fixpoint parse_value (fuel : nat) (s : string) {struct fuel}
  : option (value * string) :=
  match fuel with
  | O => None
  | S fuel =>
      match skip_white s with
      | EmptyString => None
      | String c rest as text =>
          if unit_is c 110 then expect "null" VNull text
          else if unit_is c 116 then expect "true" (VBool true) text
          else if unit_is c 102 then expect "false" (VBool false) text
          else if unit_is c 34 then
            match parse_string_units rest with
            | Some ur => Some (VStr ur.1, ur.2)
            | None => None
            end
          else if unit_is c 91 then
            match skip_white rest with
            | String "]" rest' => Some (VArr [], rest')
            | _ =>
                match parse_elements fuel rest with
                | Some er => Some (VArr er.1, er.2)
                | None => None
                end
            end
          else if unit_is c 123 then
            match skip_white rest with
            | String "}" rest' => Some (VObj [], rest')
            | _ =>
                match parse_members fuel [] rest with
                | Some mr => Some (VObj mr.1, mr.2)
                | None => None
                end
            end
          else if unit_is c 45 || is_digit c then
            match parse_number text with
            | Some nr => Some (VNum nr.1, nr.2)
            | None => None
            end
          else None
      end
  end
with parse_elements (fuel : nat) (s : string) {struct fuel}
  : option (list value * string) :=
  match fuel with
  | O => None
  | S fuel =>
      match parse_value fuel s with
      | Some vr =>
          match skip_white vr.2 with
          | String "," rest =>
              match parse_elements fuel rest with
              | Some er => Some (vr.1 :: er.1, er.2)
              | None => None
              end
          | String "]" rest => Some ([vr.1], rest)
          | _ => None
          end
      | None => None
      end
  end
with parse_members (fuel : nat) (seen : list (string * value)) (s : string)
  {struct fuel} : option (list (string * value) * string) :=
  match fuel with
  | O => None
  | S fuel =>
      match skip_white s with
      | String q rest =>
          if unit_is q 34 then
            match parse_string_units rest with
            | Some kr =>
                match skip_white kr.2 with
                | String ":" rest' =>
                    match parse_value fuel rest' with
                    | Some vr =>
                        let props := set_prop kr.1 vr.1 seen in
                        match skip_white vr.2 with
                        | String "," rest'' => parse_members fuel props rest''
                        | String "}" rest'' => Some (props, rest'')
                        | _ => None
                        end
                    | None => None
                    end
                | _ => None
                end
            | None => None
            end
          else None
      | EmptyString => None
      end
  end.

Definition parse (s : string) : option value :=
  match parse_value (2 * String.length s + 2) s with
  | Some vr => if String.eqb (skip_white vr.2) "" then Some vr.1 else None
  | None => None
  end.

(** *** StringToNumber *)

Definition digit_in_base (base : nat) (c : ascii) : option nat :=
  match hex_value c with
  | Some d => if (d <? base)%nat then Some d else None
  | None => None
  end.

Fixpoint based_value (base : nat) (acc : Z) (s : string) : option Z :=
  match s with
  | EmptyString => Some acc
  | String c rest =>
      match digit_in_base base c with
      | Some d => based_value base (Z.of_nat base * acc + Z.of_nat d) rest
      | None => None
      end
  end.

Definition based_literal (base : nat) (s : string) : number :=
  if String.eqb s "" then nan
  else match based_value base 0 s with
       | Some z => decimal_to_number false z 0
       | None => nan
       end.

(** StrDecimalLiteral: a sign, [Infinity] or digits with a point on either
    side, and an exponent. *)
Definition decimal_literal (s : string) : number :=
  let '(negative, body) :=
    match s with
    | String "-" rest => (true, rest)
    | String "+" rest => (false, rest)
    | _ => (false, s)
    end in
  if String.eqb body "Infinity"
  then (if negative then neg_infinity else infinity)
  else
    let ir := span_digits body in
    let fr :=
      match ir.2 with
      | String "." rest => span_digits rest
      | _ => ("", ir.2)
      end in
    if String.eqb ir.1 "" && String.eqb fr.1 "" then nan
    else
      match exponent_part fr.2 with
      | Some (e, EmptyString) =>
          decimal_to_number negative (digits_value 0 (ir.1 +:+ fr.1))
            (e - Z.of_nat (String.length fr.1))
      | _ => nan
      end.

Definition string_to_number (s : string) : number :=
  let text := trim s in
  match text with
  | EmptyString => 0%float
  | String "0" (String "x" rest) | String "0" (String "X" rest) =>
      based_literal 16 rest
  | String "0" (String "o" rest) | String "0" (String "O" rest) =>
      based_literal 8 rest
  | String "0" (String "b" rest) | String "0" (String "B" rest) =>
      based_literal 2 rest
  | _ => decimal_literal text
  end.

(** *** The storage quota: five mebi-units of names and values. *)

Definition storage_size (st : gmap string string) : Z :=
  map_fold (fun k v acc => (Z.of_nat (String.length k)
                            + Z.of_nat (String.length v) + acc)%Z) 0%Z st.

Definition storage_accepts (st : gmap string string) (k v : string) : bool :=
  (storage_size (<[k := v]> st) <=? 5 * 1024 * 1024)%Z.

#[global] Instance runtime : Runtime := {|
  JSON_parse := parse;
  JSON_stringify := stringify;
  Number_toString := number_to_string;
  StringToNumber := string_to_number;
  Storage_accepts := storage_accepts;
  JSON_parse_empty := eq_refl;
  JSON_parse_brackets := eq_refl
|}.

End Reference.

(** ** The vocabulary of the properties *)

Module Spec.

Section Vocabulary.
Context `{Runtime}.

(** The credential is configured: [process.env.API_KEY] is a non-empty
    string. *)
Definition configured (w : World) (k : string) : Prop :=
  API_KEY w = Some k /\ k <> "".

Definition credential_absent (w : World) : Prop :=
  API_KEY w = None \/ API_KEY w = Some "".

Definition missing_key_error : error :=
  Error "API Key is missing. Please set it in the environment.".

Definition logged (l : Level) (msg : string) (e : option error) : LogEntry :=
  {| level := l; message := msg; detail := e |}.

(** What a lookup leaves of the world apart from the store and the log. *)
Definition same_env (w w1 : World) : Prop :=
  now w1 = now w /\ API_KEY w1 = API_KEY w /\
  backend w1 = backend w /\ calls w1 = calls w.

Definition expired (w : World) (v : value) : bool :=
  (CACHE_TTL <? now w - ToNumber (Get v "timestamp"))%float.

Definition read_warning (e : error) : LogEntry :=
  logged warn "Error reading from cache" (Some e).

(** [Lookup key w c w1]: in the world [w], [getCachedData key] returns [c]
    and leaves the world [w1]. *)
Inductive Lookup (key : string) (w : World) : value -> World -> Prop :=
| Lookup_no_window :
    localStorage w = None -> Lookup key w VNull w
| Lookup_absent st :
    localStorage w = Some st -> st !! (CACHE_PREFIX +:+ key) = None ->
    Lookup key w VNull w
| Lookup_empty st :
    localStorage w = Some st -> st !! (CACHE_PREFIX +:+ key) = Some "" ->
    Lookup key w VNull w
| Lookup_unparsable st item :
    localStorage w = Some st -> st !! (CACHE_PREFIX +:+ key) = Some item ->
    item <> "" -> JSON_parse item = None ->
    Lookup key w VNull (with_log (read_warning (SyntaxError item)) w)
| Lookup_undestructurable st item v :
    localStorage w = Some st -> st !! (CACHE_PREFIX +:+ key) = Some item ->
    item <> "" -> JSON_parse item = Some v -> v = VNull \/ v = VUndefined ->
    Lookup key w VNull
      (with_log (read_warning (TypeError "Cannot destructure")) w)
| Lookup_fresh st item v :
    localStorage w = Some st -> st !! (CACHE_PREFIX +:+ key) = Some item ->
    item <> "" -> JSON_parse item = Some v -> v <> VNull -> v <> VUndefined ->
    expired w v = false ->
    Lookup key w (Get v "data") w
| Lookup_expired st item v :
    localStorage w = Some st -> st !! (CACHE_PREFIX +:+ key) = Some item ->
    item <> "" -> JSON_parse item = Some v -> v <> VNull -> v <> VUndefined ->
    expired w v = true ->
    Lookup key w VNull (with_storage (delete (CACHE_PREFIX +:+ key) st) w).

(** The store holds, under the prefixed key, a text that parses to an object
    whose [data] is [payload] and whose [timestamp] is the number [t]. *)
Definition cache_entry (st : gmap string string) (key : string)
  (payload : value) (t : number) : Prop :=
  exists item v,
    st !! (CACHE_PREFIX +:+ key) = Some item /\
    JSON_parse item = Some v /\
    Get v "data" = payload /\
    Get v "timestamp" = VNum t.

(** The two ways in which a call of the backend fails to yield a payload:
    the promise is rejected, or the text of the response is not JSON. *)
Definition backend_fails (reply : Reply) : Prop :=
  (exists e, result reply = inl e) \/
  (exists text, result reply = inr text /\
                JSON_parse (text_or_brackets text) = None).

(** An operation caches under [key]: it returns a fresh list entry stored
    under the prefixed [key] without touching the world, and whatever it
    does to the store, it does under the prefixed [key] only. *)
Definition caches_under (op : Eff value) (key : string) : Prop :=
  (forall w st payload t,
     localStorage w = Some st ->
     cache_entry st key (VArr payload) t ->
     (now w - t <=? CACHE_TTL)%float = true ->
     op w = (Normal (VArr payload), w))
  /\ (forall w st st' other,
        localStorage w = Some st ->
        localStorage (op w).2 = Some st' ->
        other <> CACHE_PREFIX +:+ key ->
        st' !! other = st !! other).

End Vocabulary.

End Spec.

Import Spec.

(** ** Sample worlds *)

Module Examples.

Import Reference.

(** A list of one item, as the backend returns it. *)
Definition dune : value :=
  VObj [ ("id", VNum 438631); ("title", VStr "Dune");
         ("overview", VStr "Paul Atreides travels to Arrakis.");
         ("vote_average", VNum (78 / 10)%float);
         ("poster_path", VStr "/d5NXSklXo0qyIYkgV94XAgMIckC.jpg") ].

Definition arrival : value :=
  VObj [ ("id", VNum 329865); ("title", VStr "Arrival");
         ("overview", VStr "A linguist meets visitors.");
         ("vote_average", VNum (76 / 10)%float) ].

(** Clock readings: a first one, and the ones a minute, two hours and two
    hours and a second later. *)
Definition t0 : number := 1700000000000%float.
Definition t0_minute : number := 1700000060000%float.
Definition t0_two_hours : number := 1700007200000%float.
Definition t0_later : number := 1700007201000%float.

Definition trending_key : string := CACHE_PREFIX +:+ "trending_movies".

Definition dune_item : string := stringify (envelope (VArr [dune]) t0).

Definition dune_store : gmap string string := {[ trending_key := dune_item ]}.

(** A store with a text that is not JSON under the key of the trending
    list. *)
Definition broken_store : gmap string string :=
  {[ trending_key := "<!doctype html>" ]}.

(** A store with a fresh entry under the prefixed key [trending]. *)
Definition misnamed_store : gmap string string :=
  {[ CACHE_PREFIX +:+ "trending" := dune_item ]}.

Definition rejecting : list Request -> Request -> Reply :=
  fun _ _ => {| settled_at := t0_later;
                result := inl (BackendError "503 Service Unavailable") |}.

Definition answering (text : option string) : list Request -> Request -> Reply :=
  fun _ _ => {| settled_at := t0_later; result := inr text |}.

Definition browser (st : gmap string string) (t : number)
  (key : option string) (b : list Request -> Request -> Reply) : World :=
  {| localStorage := Some st; now := t; API_KEY := key; backend := b;
     calls := []; console := [] |}.

(** Within the hour, with an entry. *)
Definition fresh_world : World :=
  browser dune_store t0_minute (Some "secret") rejecting.

(** Two hours later, the backend answering with another list. *)
Definition stale_world : World :=
  browser dune_store t0_two_hours (Some "secret")
    (answering (Some (stringify (VArr [arrival])))).

(** Nothing stored, the backend out of service. *)
Definition offline_world : World :=
  browser ∅ t0 (Some "secret") rejecting.

(** Nothing stored, the backend answering with an object that is not a
    list. *)
Definition overloaded : value := VObj [("error", VStr "overloaded")].

Definition object_world : World :=
  browser ∅ t0 (Some "secret") (answering (Some (stringify overloaded))).

(** Nothing stored, no credential. *)
Definition unconfigured_world : World := browser ∅ t0 None rejecting.

Definition broken_world : World :=
  browser broken_store t0 (Some "secret") rejecting.

Definition misnamed_world : World :=
  browser misnamed_store t0_minute (Some "secret") rejecting.

(** Nothing stored, the backend answering without a text. *)
Definition textless_world : World :=
  browser ∅ t0 (Some "secret") (answering None).

Definition empty_item : string := stringify (envelope (VArr []) t0_later).

(** An hour after the empty list was stored, the backend out of service. *)
Definition revisit_world : World :=
  browser {[ trending_key := empty_item ]} (t0_later + CACHE_TTL)%float
    (Some "secret") rejecting.

Definition rated (rating : number) : UI.Movie :=
  {| UI.id := 438631; UI.title := "Dune"; UI.overview := "";
     UI.poster_path := None; UI.backdrop_path := None;
     UI.release_date := "2021-09-15"; UI.vote_average := rating;
     UI.genre_ids := None; UI.genres := None; UI.reason := None |}.



End Examples.

(** ** The chat operation: [chatWithMovieBot] *)

Module Chat.

(** A turn of the history as the backend takes it; [text = None] is the
    [undefined] of a message that was built from a response without text. *)
Record Part := { text : option string }.

Record Content := {
  role : string;
  parts : list Part
}.

(** What [ai.chats.create] and [chat.sendMessage] send together. *)
Record ChatRequest := {
  chat_model : string;
  chat_history : list Content;
  chat_systemInstruction : string;
  chat_message : string;
  chat_apiKey : string
}.

(** The world of the service with the conversational endpoint beside it:
    [chat_backend] answers a message from the messages sent before it. *)
Record ChatWorld := {
  service : World;
  chat_backend : list ChatRequest -> ChatRequest -> Reply;
  chat_calls : list ChatRequest
}.

Definition ChatEff (A : Type) : Type := ChatWorld -> completion A * ChatWorld.

#[global] Instance ChatEff_ret : MRet ChatEff := fun A a w => (Normal a, w).

#[global] Instance ChatEff_bind : MBind ChatEff := fun A B f m w =>
  match m w with
  | (Normal a, w') => f a w'
  | (Throw e, w') => (Throw e, w')
  end.

Definition chat_try_catch {A : Type} (body : ChatEff A)
  (handler : error -> ChatEff A) : ChatEff A := fun w =>
  match body w with
  | (Normal a, w') => (Normal a, w')
  | (Throw e, w') => handler e w'
  end.

(** An effect of the service, run in the world of the chat. *)
Definition lift {A : Type} (m : Eff A) : ChatEff A := fun cw =>
  match m (service cw) with
  | (r, w') =>
      (r, {| service := w'; chat_backend := chat_backend cw;
             chat_calls := chat_calls cw |})
  end.

Definition with_clock (t : number) (w : World) : World :=
  {| localStorage := localStorage w; now := t; API_KEY := API_KEY w;
     backend := backend w; calls := calls w; console := console w |}.

(** [console.error(e)]: the entry has the error and no message. *)
Definition console_error_value (e : error) : Eff unit := fun w =>
  (Normal tt, with_log {| level := err; message := ""; detail := Some e |} w).

(** [await chat.sendMessage({ message })] on the chat that
    [ai.chats.create] has made: the [text] of the result. *)
Definition sendMessage (req : ChatRequest) : ChatEff (option string) := fun cw =>
  let reply := chat_backend cw (chat_calls cw) req in
  let cw' := {| service := with_clock (settled_at reply) (service cw);
                chat_backend := chat_backend cw;
                chat_calls := chat_calls cw ++ [req] |} in
  match result reply with
  | inl e => (Throw e, cw')
  | inr text => (Normal text, cw')
  end.

Definition chat_request (history : list Content) (newMessage ai : string)
  : ChatRequest :=
  {| chat_model := "gemini-3-flash-preview";
     chat_history := history;
     chat_systemInstruction := "You are 'Movistore AI', a helpful movie enthusiast assistant. Keep answers short, witty, and engaging. If user asks for recommendations, list titles clearly.";
     chat_message := newMessage;
     chat_apiKey := ai |}.

Definition apology : string :=
  "I'm having trouble connecting to the server. Try again later.".

Definition chatWithMovieBot (history : list Content) (newMessage : string)
  : ChatEff (option string) :=
  chat_try_catch
    (ai ← lift getAI;
     sendMessage (chat_request history newMessage ai))
    (fun e => lift (console_error_value e);; mret (Some apology)).

End Chat.

(** ** The application: the state of [App] and its handlers *)

Module App.

Import UI Chat.

(** [type Category = 'home' | 'tv' | 'movies' | 'new' | 'web'] *)
Inductive Category : Type := c_home | c_tv | c_movies | c_new | c_web.

Definition category_name (c : Category) : string :=
  match c with
  | c_home => "home"
  | c_tv => "tv"
  | c_movies => "movies"
  | c_new => "new"
  | c_web => "web"
  end.

(** [interface User] *)
Record User := {
  user_id : string;
  user_name : string;
  user_email : string;
  user_favorites : list Movie;
  user_history : list Movie;
  user_preferences : list string
}.

(** [interface ChatMessage]; the text of an answer is what
    [chatWithMovieBot] returned, [undefined] included. *)
Record ChatMessage := {
  msg_id : string;
  msg_role : string;
  msg_text : option string
}.

(** The state of [App]: one field for each [useState]. *)
Record AppState := {
  featuredMovie : option Movie;
  categoryContent : list Movie;
  currentCategory : Category;
  searchResults : list Movie;
  searchQuery : string;
  isScrolled : bool;
  isSearching : bool;
  isLoadingContent : bool;
  user : option User;
  watchHistory : list Movie;
  favorites : list Movie;
  showFavorites : bool;
  showLoginModal : bool;
  showProfileModal : bool;
  loginEmail : string;
  loginName : string;
  isListening : bool;
  isChatOpen : bool;
  chatMessages : list ChatMessage;
  chatInput : string;
  isThinking : bool
}.

(** The setters of the state. *)
Definition setFeaturedMovie (v : option Movie) (s : AppState) : AppState :=
  {| featuredMovie := v; categoryContent := categoryContent s;
     currentCategory := currentCategory s; searchResults := searchResults s;
     searchQuery := searchQuery s; isScrolled := isScrolled s;
     isSearching := isSearching s; isLoadingContent := isLoadingContent s;
     user := user s; watchHistory := watchHistory s;
     favorites := favorites s; showFavorites := showFavorites s;
     showLoginModal := showLoginModal s;
     showProfileModal := showProfileModal s; loginEmail := loginEmail s;
     loginName := loginName s; isListening := isListening s;
     isChatOpen := isChatOpen s; chatMessages := chatMessages s;
     chatInput := chatInput s; isThinking := isThinking s |}.

Definition setCategoryContent (v : list Movie) (s : AppState) : AppState :=
  {| featuredMovie := featuredMovie s; categoryContent := v;
     currentCategory := currentCategory s; searchResults := searchResults s;
     searchQuery := searchQuery s; isScrolled := isScrolled s;
     isSearching := isSearching s; isLoadingContent := isLoadingContent s;
     user := user s; watchHistory := watchHistory s;
     favorites := favorites s; showFavorites := showFavorites s;
     showLoginModal := showLoginModal s;
     showProfileModal := showProfileModal s; loginEmail := loginEmail s;
     loginName := loginName s; isListening := isListening s;
     isChatOpen := isChatOpen s; chatMessages := chatMessages s;
     chatInput := chatInput s; isThinking := isThinking s |}.

Definition setCurrentCategory (v : Category) (s : AppState) : AppState :=
  {| featuredMovie := featuredMovie s; categoryContent := categoryContent s;
     currentCategory := v; searchResults := searchResults s;
     searchQuery := searchQuery s; isScrolled := isScrolled s;
     isSearching := isSearching s; isLoadingContent := isLoadingContent s;
     user := user s; watchHistory := watchHistory s;
     favorites := favorites s; showFavorites := showFavorites s;
     showLoginModal := showLoginModal s;
     showProfileModal := showProfileModal s; loginEmail := loginEmail s;
     loginName := loginName s; isListening := isListening s;
     isChatOpen := isChatOpen s; chatMessages := chatMessages s;
     chatInput := chatInput s; isThinking := isThinking s |}.

Definition setSearchResults (v : list Movie) (s : AppState) : AppState :=
  {| featuredMovie := featuredMovie s; categoryContent := categoryContent s;
     currentCategory := currentCategory s; searchResults := v;
     searchQuery := searchQuery s; isScrolled := isScrolled s;
     isSearching := isSearching s; isLoadingContent := isLoadingContent s;
     user := user s; watchHistory := watchHistory s;
     favorites := favorites s; showFavorites := showFavorites s;
     showLoginModal := showLoginModal s;
     showProfileModal := showProfileModal s; loginEmail := loginEmail s;
     loginName := loginName s; isListening := isListening s;
     isChatOpen := isChatOpen s; chatMessages := chatMessages s;
     chatInput := chatInput s; isThinking := isThinking s |}.

Definition setSearchQuery (v : string) (s : AppState) : AppState :=
  {| featuredMovie := featuredMovie s; categoryContent := categoryContent s;
     currentCategory := currentCategory s; searchResults := searchResults s;
     searchQuery := v; isScrolled := isScrolled s;
     isSearching := isSearching s; isLoadingContent := isLoadingContent s;
     user := user s; watchHistory := watchHistory s;
     favorites := favorites s; showFavorites := showFavorites s;
     showLoginModal := showLoginModal s;
     showProfileModal := showProfileModal s; loginEmail := loginEmail s;
     loginName := loginName s; isListening := isListening s;
     isChatOpen := isChatOpen s; chatMessages := chatMessages s;
     chatInput := chatInput s; isThinking := isThinking s |}.

Definition setIsScrolled (v : bool) (s : AppState) : AppState :=
  {| featuredMovie := featuredMovie s; categoryContent := categoryContent s;
     currentCategory := currentCategory s; searchResults := searchResults s;
     searchQuery := searchQuery s; isScrolled := v;
     isSearching := isSearching s; isLoadingContent := isLoadingContent s;
     user := user s; watchHistory := watchHistory s;
     favorites := favorites s; showFavorites := showFavorites s;
     showLoginModal := showLoginModal s;
     showProfileModal := showProfileModal s; loginEmail := loginEmail s;
     loginName := loginName s; isListening := isListening s;
     isChatOpen := isChatOpen s; chatMessages := chatMessages s;
     chatInput := chatInput s; isThinking := isThinking s |}.

Definition setIsSearching (v : bool) (s : AppState) : AppState :=
  {| featuredMovie := featuredMovie s; categoryContent := categoryContent s;
     currentCategory := currentCategory s; searchResults := searchResults s;
     searchQuery := searchQuery s; isScrolled := isScrolled s;
     isSearching := v; isLoadingContent := isLoadingContent s;
     user := user s; watchHistory := watchHistory s;
     favorites := favorites s; showFavorites := showFavorites s;
     showLoginModal := showLoginModal s;
     showProfileModal := showProfileModal s; loginEmail := loginEmail s;
     loginName := loginName s; isListening := isListening s;
     isChatOpen := isChatOpen s; chatMessages := chatMessages s;
     chatInput := chatInput s; isThinking := isThinking s |}.

Definition setIsLoadingContent (v : bool) (s : AppState) : AppState :=
  {| featuredMovie := featuredMovie s; categoryContent := categoryContent s;
     currentCategory := currentCategory s; searchResults := searchResults s;
     searchQuery := searchQuery s; isScrolled := isScrolled s;
     isSearching := isSearching s; isLoadingContent := v; user := user s;
     watchHistory := watchHistory s; favorites := favorites s;
     showFavorites := showFavorites s; showLoginModal := showLoginModal s;
     showProfileModal := showProfileModal s; loginEmail := loginEmail s;
     loginName := loginName s; isListening := isListening s;
     isChatOpen := isChatOpen s; chatMessages := chatMessages s;
     chatInput := chatInput s; isThinking := isThinking s |}.

Definition setUser (v : option User) (s : AppState) : AppState :=
  {| featuredMovie := featuredMovie s; categoryContent := categoryContent s;
     currentCategory := currentCategory s; searchResults := searchResults s;
     searchQuery := searchQuery s; isScrolled := isScrolled s;
     isSearching := isSearching s; isLoadingContent := isLoadingContent s;
     user := v; watchHistory := watchHistory s; favorites := favorites s;
     showFavorites := showFavorites s; showLoginModal := showLoginModal s;
     showProfileModal := showProfileModal s; loginEmail := loginEmail s;
     loginName := loginName s; isListening := isListening s;
     isChatOpen := isChatOpen s; chatMessages := chatMessages s;
     chatInput := chatInput s; isThinking := isThinking s |}.

Definition setWatchHistory (v : list Movie) (s : AppState) : AppState :=
  {| featuredMovie := featuredMovie s; categoryContent := categoryContent s;
     currentCategory := currentCategory s; searchResults := searchResults s;
     searchQuery := searchQuery s; isScrolled := isScrolled s;
     isSearching := isSearching s; isLoadingContent := isLoadingContent s;
     user := user s; watchHistory := v; favorites := favorites s;
     showFavorites := showFavorites s; showLoginModal := showLoginModal s;
     showProfileModal := showProfileModal s; loginEmail := loginEmail s;
     loginName := loginName s; isListening := isListening s;
     isChatOpen := isChatOpen s; chatMessages := chatMessages s;
     chatInput := chatInput s; isThinking := isThinking s |}.

Definition setFavorites (v : list Movie) (s : AppState) : AppState :=
  {| featuredMovie := featuredMovie s; categoryContent := categoryContent s;
     currentCategory := currentCategory s; searchResults := searchResults s;
     searchQuery := searchQuery s; isScrolled := isScrolled s;
     isSearching := isSearching s; isLoadingContent := isLoadingContent s;
     user := user s; watchHistory := watchHistory s; favorites := v;
     showFavorites := showFavorites s; showLoginModal := showLoginModal s;
     showProfileModal := showProfileModal s; loginEmail := loginEmail s;
     loginName := loginName s; isListening := isListening s;
     isChatOpen := isChatOpen s; chatMessages := chatMessages s;
     chatInput := chatInput s; isThinking := isThinking s |}.

Definition setShowFavorites (v : bool) (s : AppState) : AppState :=
  {| featuredMovie := featuredMovie s; categoryContent := categoryContent s;
     currentCategory := currentCategory s; searchResults := searchResults s;
     searchQuery := searchQuery s; isScrolled := isScrolled s;
     isSearching := isSearching s; isLoadingContent := isLoadingContent s;
     user := user s; watchHistory := watchHistory s;
     favorites := favorites s; showFavorites := v;
     showLoginModal := showLoginModal s;
     showProfileModal := showProfileModal s; loginEmail := loginEmail s;
     loginName := loginName s; isListening := isListening s;
     isChatOpen := isChatOpen s; chatMessages := chatMessages s;
     chatInput := chatInput s; isThinking := isThinking s |}.

Definition setShowLoginModal (v : bool) (s : AppState) : AppState :=
  {| featuredMovie := featuredMovie s; categoryContent := categoryContent s;
     currentCategory := currentCategory s; searchResults := searchResults s;
     searchQuery := searchQuery s; isScrolled := isScrolled s;
     isSearching := isSearching s; isLoadingContent := isLoadingContent s;
     user := user s; watchHistory := watchHistory s;
     favorites := favorites s; showFavorites := showFavorites s;
     showLoginModal := v; showProfileModal := showProfileModal s;
     loginEmail := loginEmail s; loginName := loginName s;
     isListening := isListening s; isChatOpen := isChatOpen s;
     chatMessages := chatMessages s; chatInput := chatInput s;
     isThinking := isThinking s |}.

Definition setShowProfileModal (v : bool) (s : AppState) : AppState :=
  {| featuredMovie := featuredMovie s; categoryContent := categoryContent s;
     currentCategory := currentCategory s; searchResults := searchResults s;
     searchQuery := searchQuery s; isScrolled := isScrolled s;
     isSearching := isSearching s; isLoadingContent := isLoadingContent s;
     user := user s; watchHistory := watchHistory s;
     favorites := favorites s; showFavorites := showFavorites s;
     showLoginModal := showLoginModal s; showProfileModal := v;
     loginEmail := loginEmail s; loginName := loginName s;
     isListening := isListening s; isChatOpen := isChatOpen s;
     chatMessages := chatMessages s; chatInput := chatInput s;
     isThinking := isThinking s |}.

Definition setLoginEmail (v : string) (s : AppState) : AppState :=
  {| featuredMovie := featuredMovie s; categoryContent := categoryContent s;
     currentCategory := currentCategory s; searchResults := searchResults s;
     searchQuery := searchQuery s; isScrolled := isScrolled s;
     isSearching := isSearching s; isLoadingContent := isLoadingContent s;
     user := user s; watchHistory := watchHistory s;
     favorites := favorites s; showFavorites := showFavorites s;
     showLoginModal := showLoginModal s;
     showProfileModal := showProfileModal s; loginEmail := v;
     loginName := loginName s; isListening := isListening s;
     isChatOpen := isChatOpen s; chatMessages := chatMessages s;
     chatInput := chatInput s; isThinking := isThinking s |}.

Definition setLoginName (v : string) (s : AppState) : AppState :=
  {| featuredMovie := featuredMovie s; categoryContent := categoryContent s;
     currentCategory := currentCategory s; searchResults := searchResults s;
     searchQuery := searchQuery s; isScrolled := isScrolled s;
     isSearching := isSearching s; isLoadingContent := isLoadingContent s;
     user := user s; watchHistory := watchHistory s;
     favorites := favorites s; showFavorites := showFavorites s;
     showLoginModal := showLoginModal s;
     showProfileModal := showProfileModal s; loginEmail := loginEmail s;
     loginName := v; isListening := isListening s;
     isChatOpen := isChatOpen s; chatMessages := chatMessages s;
     chatInput := chatInput s; isThinking := isThinking s |}.

Definition setIsListening (v : bool) (s : AppState) : AppState :=
  {| featuredMovie := featuredMovie s; categoryContent := categoryContent s;
     currentCategory := currentCategory s; searchResults := searchResults s;
     searchQuery := searchQuery s; isScrolled := isScrolled s;
     isSearching := isSearching s; isLoadingContent := isLoadingContent s;
     user := user s; watchHistory := watchHistory s;
     favorites := favorites s; showFavorites := showFavorites s;
     showLoginModal := showLoginModal s;
     showProfileModal := showProfileModal s; loginEmail := loginEmail s;
     loginName := loginName s; isListening := v; isChatOpen := isChatOpen s;
     chatMessages := chatMessages s; chatInput := chatInput s;
     isThinking := isThinking s |}.

Definition setIsChatOpen (v : bool) (s : AppState) : AppState :=
  {| featuredMovie := featuredMovie s; categoryContent := categoryContent s;
     currentCategory := currentCategory s; searchResults := searchResults s;
     searchQuery := searchQuery s; isScrolled := isScrolled s;
     isSearching := isSearching s; isLoadingContent := isLoadingContent s;
     user := user s; watchHistory := watchHistory s;
     favorites := favorites s; showFavorites := showFavorites s;
     showLoginModal := showLoginModal s;
     showProfileModal := showProfileModal s; loginEmail := loginEmail s;
     loginName := loginName s; isListening := isListening s;
     isChatOpen := v; chatMessages := chatMessages s;
     chatInput := chatInput s; isThinking := isThinking s |}.

Definition setChatMessages (v : list ChatMessage) (s : AppState) : AppState :=
  {| featuredMovie := featuredMovie s; categoryContent := categoryContent s;
     currentCategory := currentCategory s; searchResults := searchResults s;
     searchQuery := searchQuery s; isScrolled := isScrolled s;
     isSearching := isSearching s; isLoadingContent := isLoadingContent s;
     user := user s; watchHistory := watchHistory s;
     favorites := favorites s; showFavorites := showFavorites s;
     showLoginModal := showLoginModal s;
     showProfileModal := showProfileModal s; loginEmail := loginEmail s;
     loginName := loginName s; isListening := isListening s;
     isChatOpen := isChatOpen s; chatMessages := v;
     chatInput := chatInput s; isThinking := isThinking s |}.

Definition setChatInput (v : string) (s : AppState) : AppState :=
  {| featuredMovie := featuredMovie s; categoryContent := categoryContent s;
     currentCategory := currentCategory s; searchResults := searchResults s;
     searchQuery := searchQuery s; isScrolled := isScrolled s;
     isSearching := isSearching s; isLoadingContent := isLoadingContent s;
     user := user s; watchHistory := watchHistory s;
     favorites := favorites s; showFavorites := showFavorites s;
     showLoginModal := showLoginModal s;
     showProfileModal := showProfileModal s; loginEmail := loginEmail s;
     loginName := loginName s; isListening := isListening s;
     isChatOpen := isChatOpen s; chatMessages := chatMessages s;
     chatInput := v; isThinking := isThinking s |}.

Definition setIsThinking (v : bool) (s : AppState) : AppState :=
  {| featuredMovie := featuredMovie s; categoryContent := categoryContent s;
     currentCategory := currentCategory s; searchResults := searchResults s;
     searchQuery := searchQuery s; isScrolled := isScrolled s;
     isSearching := isSearching s; isLoadingContent := isLoadingContent s;
     user := user s; watchHistory := watchHistory s;
     favorites := favorites s; showFavorites := showFavorites s;
     showLoginModal := showLoginModal s;
     showProfileModal := showProfileModal s; loginEmail := loginEmail s;
     loginName := loginName s; isListening := isListening s;
     isChatOpen := isChatOpen s; chatMessages := chatMessages s;
     chatInput := chatInput s; isThinking := v |}.

Definition initial : AppState :=
  {| featuredMovie := None; categoryContent := []; currentCategory := c_home;
     searchResults := []; searchQuery := ""; isScrolled := false;
     isSearching := false; isLoadingContent := true; user := None;
     watchHistory := []; favorites := []; showFavorites := false;
     showLoginModal := false; showProfileModal := false; loginEmail := "";
     loginName := ""; isListening := false; isChatOpen := false;
     chatMessages :=
       [{| msg_id := "1"; msg_role := "model";
           msg_text := Some "Hi! I am the MOVISTORE AI. Ask me for recommendations or tell me your mood!" |}];
     chatInput := ""; isThinking := false |}.

(** The part of the page under the navigation bar: the results of a search
    when there are some, else the list of favourites when it is asked for,
    else the banner and the rows. *)
Inductive MainView : Type := SearchResultsView | MyListView | BrowseView.

Definition main_view (s : AppState) : MainView :=
  if (0 <? length (searchResults s))%nat then SearchResultsView
  else if showFavorites s then MyListView
  else BrowseView.

(** What a handler shows or logs beside the state. *)
Inductive Output : Type :=
| Alert (text : string)
| ConsoleError (text : string).

(** *** Loading the rows

    An [async] handler is in two parts: what runs up to the [await], and
    what runs when the awaited operation has returned.  The lists are lists
    of movies, as the types of the source say. *)

Definition loadInitialData_start (s : AppState) : AppState :=
  setIsLoadingContent true s.

Definition loadInitialData_resume (movies : list Movie) (s : AppState)
  : AppState :=
  let s :=
    if (0 <? length movies)%nat then
      let s := setCategoryContent movies s in
      setFeaturedMovie (movies !! 0%nat) s
    else s in
  setIsLoadingContent false s.

(** [scrollY] is the reading of [window.scrollY]. *)
Definition handleScroll (scrollY : number) (s : AppState) : AppState :=
  setIsScrolled (0 <? scrollY)%float s.

(** The operation that [loadInitialData] awaits. *)
Definition loadInitialData_fetch : Kind := Trending.

(** The operation that [handleCategoryChange] awaits. *)
Definition handleCategoryChange_fetch (category : Category) : Kind :=
  match category with
  | c_home => Trending
  | _ => Gemini.Category (category_name category)
  end.

Definition handleCategoryChange_start (category : Category) (s : AppState)
  : AppState :=
  let s := setCurrentCategory category s in
  let s := setShowFavorites false s in
  let s := setShowProfileModal false s in
  let s := setSearchResults [] s in
  let s := setSearchQuery "" s in
  setIsLoadingContent true s.

Definition handleCategoryChange_resume (movies : list Movie) (s : AppState)
  : AppState :=
  let s :=
    if (0 <? length movies)%nat then
      let s := setCategoryContent movies s in
      setFeaturedMovie (movies !! 0%nat) s
    else s in
  setIsLoadingContent false s.

(** *** Favourites and the watching history *)

(** [m.id === movie.id], on numbers *)
Definition same_id (m movie : Movie) : bool := (id m =? id movie)%float.

Definition toggleFavorite (movie : Movie) (s : AppState) : AppState :=
  setFavorites
    ((fun prev =>
        if existsb (fun m => same_id m movie) prev
        then List.filter (fun m => negb (same_id m movie)) prev
        else (prev ++ [movie])%list) (favorites s)) s.

Definition isFavorite (movieId : number) (s : AppState) : bool :=
  existsb (fun m => (id m =? movieId)%float) (favorites s).

Definition handlePlayMovie (s : AppState) : AppState * list Output :=
  match featuredMovie s with
  | Some featured =>
      (setWatchHistory
         ((fun prev =>
             let filtered :=
               List.filter (fun m => negb (same_id m featured)) prev in
             featured :: filtered) (watchHistory s)) s,
       [Alert ("Now Playing: " +:+ title featured)])
  | None => (s, [])
  end.

(** *** Signing in and out *)

Section Handlers.
Context `{Runtime}.

(** [now] is the reading of [Date.now()]. *)
Definition handleLoginSubmit (now : number) (s : AppState) : AppState :=
  if negb (String.eqb (loginName s) "") && negb (String.eqb (loginEmail s) "")
  then
    let newUser :=
      {| user_id := Number_toString now;
         user_name := loginName s;
         user_email := loginEmail s;
         user_favorites := [];
         user_history := [];
         user_preferences := [] |} in
    let s := setUser (Some newUser) s in
    let s := setShowLoginModal false s in
    let s := setLoginName "" s in
    let s := setLoginEmail "" s in
    setShowProfileModal true s
  else s.

Definition handleLogout (s : AppState) : AppState :=
  let s := setUser None s in
  let s := setShowProfileModal false s in
  let s := setShowFavorites false s in
  setWatchHistory [] s.

Definition handleUserIconClick (s : AppState) : AppState :=
  match user s with
  | Some _ => setShowProfileModal true s
  | None => setShowLoginModal true s
  end.

(** *** Searching *)

(** [overrideQuery || searchQuery] *)
Definition handleSearch_query (overrideQuery : option string) (s : AppState)
  : string :=
  match overrideQuery with
  | Some q => if String.eqb q "" then searchQuery s else q
  | None => searchQuery s
  end.

(** Up to the [await]: nothing for a query that is empty once trimmed;
    otherwise the query that [searchMoviesAI] is called with, and the
    state. *)
Definition handleSearch_start (overrideQuery : option string) (s : AppState)
  : option (string * AppState) :=
  let query := handleSearch_query overrideQuery s in
  if String.eqb (trim query) "" then None
  else
    let s := setIsSearching true s in
    let s := setShowFavorites false s in
    let s := setShowProfileModal false s in
    Some (query, s).

Definition handleSearch_resume (results : list Movie) (s : AppState)
  : AppState :=
  let s := setSearchResults results s in
  setIsSearching false s.

(** *** Searching by voice

    [supported] says whether the browser has a [SpeechRecognition]. *)
Definition handleVoiceSearch (supported : bool) (s : AppState)
  : AppState * list Output :=
  if isListening s then (s, [])
  else if negb supported then
    (s, [Alert "Voice search is not supported in this browser."])
  else (setIsListening true s, []).

Definition recognition_onresult (transcript : string) (s : AppState)
  : AppState :=
  setSearchQuery transcript s.

Definition recognition_onspeechend (s : AppState) : AppState :=
  setIsListening false s.

Definition recognition_onerror (s : AppState) : AppState * list Output :=
  (setIsListening false s, [ConsoleError "Speech recognition error"]).

(** *** The chat *)

(** [{ role: m.role, parts: [{ text: m.text }] }] *)
Definition to_content (m : ChatMessage) : Content :=
  {| role := msg_role m; parts := [{| text := msg_text m |}] |}.

(** Up to the [await]: nothing for an input that is empty once trimmed;
    otherwise the history and the message that [chatWithMovieBot] is called
    with, and the state.  The history is made of the messages on display
    when the form is submitted; the new message is not among them. *)
Definition handleChatSubmit_start (now : number) (s : AppState)
  : option (list Content * string * AppState) :=
  if String.eqb (trim (chatInput s)) "" then None
  else
    let newMsg_text := chatInput s in
    let newMsg :=
      {| msg_id := Number_toString now; msg_role := "user";
         msg_text := Some newMsg_text |} in
    let history := map to_content (chatMessages s) in
    let s := setChatMessages (chatMessages s ++ [newMsg])%list s in
    let s := setChatInput "" s in
    let s := setIsThinking true s in
    Some (history, newMsg_text, s).

Definition handleChatSubmit_resume (now : number)
  (responseText : option string) (s : AppState) : AppState :=
  let s := setIsThinking false s in
  setChatMessages
    (chatMessages s
       ++ [{| msg_id := Number_toString (now + 1)%float; msg_role := "model";
              msg_text := responseText |}])%list s.

(** A turn of the chat from the submission to the answer, when nothing else
    happens in between.  The clock is read before the test of the input,
    which changes nothing: reading it has no effect. *)
Definition handleChatSubmit (s : AppState) : ChatEff AppState :=
  now ← lift Date_now;
  match handleChatSubmit_start now s with
  | None => mret s
  | Some (history, message, s) =>
      responseText ← chatWithMovieBot history message;
      now ← lift Date_now;
      mret (handleChatSubmit_resume now responseText s)
  end.

(** *** The events of the page

    Each event is a handler that the page binds, with what it reads from
    outside the state: the clock, the scroll position, the text typed, the
    card that was clicked, and for the second part of an [async] handler
    what the awaited operation returned.  The links [Clear Search] and
    [Browse Movies] are [CategoryChosen c_home]. *)
Inductive Event : Type :=
| Mounted
| InitialDataLoaded (movies : list Movie)
| Scrolled (scrollY : number)
| CategoryChosen (category : Category)
| CategoryLoaded (movies : list Movie)
| FavoriteToggled (movie : Movie)
| PlayClicked
| LoginSubmitted (now : number)
| SignedOut
| UserIconClicked
| SearchSubmitted
| SearchLoaded (results : list Movie)
| VoiceClicked (supported : bool)
| VoiceResult (transcript : string)
| VoiceSpeechEnd
| VoiceError
| ChatSubmitted (now : number)
| ChatAnswered (now : number) (responseText : option string)
| MyListClicked (wide : bool)
| SearchTyped (typed : string)
| ProfileClosed
| ProfileMyListClicked
| LoginClosed
| LoginNameTyped (typed : string)
| LoginEmailTyped (typed : string)
| CardSelected (m : Movie)
| ChatToggled
| ChatClosed
| ChatTyped (typed : string).

Definition step (s : AppState) (e : Event) : AppState :=
  match e with
  | Mounted => loadInitialData_start s
  | InitialDataLoaded movies => loadInitialData_resume movies s
  | Scrolled scrollY => handleScroll scrollY s
  | CategoryChosen category => handleCategoryChange_start category s
  | CategoryLoaded movies => handleCategoryChange_resume movies s
  | FavoriteToggled movie => toggleFavorite movie s
  | PlayClicked => (handlePlayMovie s).1
  | LoginSubmitted now => handleLoginSubmit now s
  | SignedOut => handleLogout s
  | UserIconClicked => handleUserIconClick s
  | SearchSubmitted =>
      match handleSearch_start None s with
      | Some (_, s) => s
      | None => s
      end
  | SearchLoaded results => handleSearch_resume results s
  | VoiceClicked supported => (handleVoiceSearch supported s).1
  | VoiceResult transcript => recognition_onresult transcript s
  | VoiceSpeechEnd => recognition_onspeechend s
  | VoiceError => (recognition_onerror s).1
  | ChatSubmitted now =>
      match handleChatSubmit_start now s with
      | Some (_, _, s) => s
      | None => s
      end
  | ChatAnswered now responseText =>
      handleChatSubmit_resume now responseText s
  | MyListClicked wide =>
      let s := setShowFavorites true s in
      let s := setSearchResults [] s in
      if wide then setShowProfileModal false s else s
  | SearchTyped typed => setSearchQuery typed s
  | ProfileClosed => setShowProfileModal false s
  | ProfileMyListClicked =>
      let s := setShowFavorites true s in
      setShowProfileModal false s
  | LoginClosed => setShowLoginModal false s
  | LoginNameTyped typed => setLoginName typed s
  | LoginEmailTyped typed => setLoginEmail typed s
  | CardSelected m => setFeaturedMovie (Some m) s
  | ChatToggled => setIsChatOpen (negb (isChatOpen s)) s
  | ChatClosed => setIsChatOpen false s
  | ChatTyped typed => setChatInput typed s
  end.

(** The state after a sequence of events, from the first render. *)
Definition run (events : list Event) : AppState :=
  fold_left step events initial.

End Handlers.

End App.

(** ** The page and its banner *)

Module Page.

Import UI App.

Section Banner.
Context `{Runtime}.

(** [App] renders [Hero] with [featuredMovie], in the browse view only.  The
    banner is mounted with its first state; its effect runs after the render
    that mounts it and after every render that gives it another movie, and
    may run after any other. *)
Definition PageState : Type := AppState * option HeroState.

Definition first_page : PageState :=
  (initial, Some (Hero_step (featuredMovie initial) Hero_initial HeroEffect)).

Inductive page_step : PageState -> PageState -> Prop :=
| page_leave s h e :
    main_view (step s e) <> BrowseView ->
    page_step (s, h) (step s e, None)
| page_enter s e :
    main_view (step s e) = BrowseView ->
    page_step (s, None)
      (step s e,
       Some (Hero_step (featuredMovie (step s e)) Hero_initial HeroEffect))
| page_effect s hs e :
    main_view (step s e) = BrowseView ->
    page_step (s, Some hs)
      (step s e, Some (Hero_step (featuredMovie (step s e)) hs HeroEffect))
| page_same_movie s hs e :
    main_view (step s e) = BrowseView ->
    featuredMovie (step s e) = featuredMovie s ->
    page_step (s, Some hs) (step s e, Some hs)
| page_banner_error s hs :
    page_step (s, Some hs)
      (s, Some (Hero_step (featuredMovie s) hs HeroImageError)).

Inductive page_reachable : PageState -> Prop :=
| page_first : page_reachable first_page
| page_next p p' : page_reachable p -> page_step p p' -> page_reachable p'.

(** The image of the banner of a movie once its effect has run. *)
Definition banner_image (movie : Movie) : string :=
  bgSrc (Hero_step (Some movie) Hero_initial HeroEffect).

(** A card of a movie after a sequence of events, from its first state. *)
Definition MovieCard_run (movie : Movie) (events : list MovieCardEvent)
  : MovieCardState :=
  fold_left (MovieCard_step movie) events MovieCard_initial.

End Banner.

End Page.

(** ** More vocabulary *)

Module Spec2.

(** The kinds that share a cache entry: the trending list with itself, a
    category with itself, and two searches whose queries are the same once
    in lower case and trimmed. *)
Definition same_entry (k1 k2 : Kind) : Prop :=
  match k1, k2 with
  | Trending, Trending => True
  | Category c1, Category c2 => c1 = c2
  | Search q1, Search q2 => trim (toLowerCase q1) = trim (toLowerCase q2)
  | _, _ => False
  end.

(** A chat turn fails with [e]: the credential is absent and [getAI] throws
    [e], or the call of the conversational endpoint is rejected with [e]. *)
Definition chat_fails (cw : Chat.ChatWorld) (history : list Chat.Content)
  (newMessage : string) (e : error) : Prop :=
  (credential_absent (Chat.service cw) /\ e = missing_key_error)
  \/ (exists ai,
        configured (Chat.service cw) ai /\
        result (Chat.chat_backend cw (Chat.chat_calls cw)
                  (Chat.chat_request history newMessage ai)) = inl e).

(** A value that is not an object or an array: its numeric value is
    computed without a call, and the conversion cannot throw. *)
Definition primitive (v : value) : bool :=
  match v with
  | VArr _ | VObj _ => false
  | _ => true
  end.

(** No two movies of the list have ids that are [===]. *)
Fixpoint distinct_ids (l : list UI.Movie) : Prop :=
  match l with
  | [] => True
  | m :: rest =>
      Forall (fun m' => App.same_id m' m = false) rest /\ distinct_ids rest
  end.

End Spec2.

Import Spec2.

(** ** More sample worlds *)

Module Examples2.

Import Reference Examples Chat UI App.

(** An item without a timestamp, and a clock reading ten years on. *)
Definition untimed_item : string := stringify (VObj [("data", VArr [dune])]).

Definition ten_years_on : number := 2015000000000%float.

Definition untimed_world : World :=
  browser {[ trending_key := untimed_item ]} ten_years_on (Some "secret")
    rejecting.

(** Nothing stored, the backend answering with a list of one item. *)
Definition dune_text : string := stringify (VArr [dune]).

Definition answering_world : World :=
  browser ∅ t0 (Some "secret") (answering (Some dune_text)).

(** The reference runtime in a browser whose storage area takes nothing
    (a quota of zero, as in some private windows): every [setItem]
    throws. *)
Definition private_runtime : Runtime :=
  {| JSON_parse := parse;
     JSON_stringify := stringify;
     Number_toString := number_to_string;
     StringToNumber := string_to_number;
     Storage_accepts := fun _ _ _ => false;
     JSON_parse_empty := eq_refl;
     JSON_parse_brackets := eq_refl |}.

Definition greeting : Content :=
  {| role := "model";
     parts := [{| text := Some "Hi! I am the MOVISTORE AI. Ask me for recommendations or tell me your mood!" |}] |}.

Definition chat_world (key : option string)
  (b : list ChatRequest -> ChatRequest -> Reply) : ChatWorld :=
  {| service := browser dune_store t0 key rejecting;
     chat_backend := b; chat_calls := [] |}.

Definition chat_answering (text : option string)
  : list ChatRequest -> ChatRequest -> Reply :=
  fun _ _ => {| settled_at := t0_minute; result := inr text |}.

Definition chat_rejecting : list ChatRequest -> ChatRequest -> Reply :=
  fun _ _ => {| settled_at := t0_minute;
                result := inl (BackendError "fetch failed") |}.

(** Outside a browser: no [window], the backend answering with the list. *)
Definition server_world : World :=
  {| localStorage := None; now := t0; API_KEY := Some "secret";
     backend := answering (Some dune_text); calls := []; console := [] |}.

(** The page with a featured movie, and with a question typed in the chat. *)
Definition featuring : AppState := setFeaturedMovie (Some (rated 8)) initial.

Definition asking : AppState := setChatInput "Any space films?" initial.

End Examples2.

(** * Proofs *)

(** ** Tactics for running the effects *)

Ltac eff_unfold :=
  unfold read_through, refill, getCachedData, setCachedData, getAI,
    try_catch, window_undefined, localStorage_getItem,
    localStorage_removeItem, localStorage_setItem, Date_now,
    process_env_API_KEY, console_warn, console_error, JSON_parse_eff,
    destructure_data_timestamp, generateContent, throw,
    mbind, mret, Eff_bind, Eff_ret in *.

(** Reduce, and rewrite the scrutinee of a [match] with a hypothesis. *)
Ltac eff_simpl :=
  cbv beta iota zeta;
  cbn [localStorage now API_KEY backend calls console
       with_call with_storage with_log fst snd].

Ltac eff_step :=
  eff_simpl;
  repeat (match goal with
          | E : ?x = _ |- context [match ?x with _ => _ end] => rewrite E
          end; eff_simpl).

Ltac eff_run := eff_unfold; eff_step.

(** Case analysis on the innermost scrutinees, until none is left. *)
Ltac eff_cases :=
  repeat (match goal with
          | |- context [match ?x with _ => _ end] =>
              lazymatch x with
              | context [match _ with _ => _ end] => fail
              | _ => destruct x eqn:?
              end
          end; eff_simpl).

(** Split the conjunctions of the goal, and nothing else. *)
Ltac split_all := repeat match goal with |- _ /\ _ => split end.

(** ** Facts about numbers *)

Lemma SFcompare_antisym (x y : spec_float) :
  SFcompare y x = option_map CompOpp (SFcompare x y).
Proof.
  destruct x as [sx|sx| |sx mx ex], y as [sy|sy| |sy my ey]; simpl;
    try reflexivity; try (destruct sx; reflexivity);
    try (destruct sy; reflexivity); try (destruct sx, sy; reflexivity).
  rewrite (Z.compare_antisym ex ey).
  destruct sx, sy; simpl; try reflexivity;
    destruct (ex ?= ey)%Z eqn:E; simpl; try reflexivity;
    rewrite (Pos.compare_cont_antisym mx my Eq); simpl;
    try rewrite CompOpp_involutive; reflexivity.
Qed.

(** [x <= y] excludes [y < x] (both are false on NaN). *)
Lemma leb_not_ltb (x y : number) :
  (x <=? y)%float = true -> (y <? x)%float = false.
Proof.
  rewrite leb_spec, ltb_spec. unfold SFleb, SFltb.
  rewrite (SFcompare_antisym (Prim2SF x) (Prim2SF y)).
  destruct (SFcompare (Prim2SF x) (Prim2SF y)) as [[]|]; simpl; congruence.
Qed.

(** ** The cache: lookup, miss path and the claims about them *)

Section Cache.
Context `{Runtime}.

Lemma fetch_read_through (k : Kind) :
  fetch k = read_through (cacheKey k) (request k) (error_label k).
Proof. destruct k; reflexivity. Qed.

Lemma getCachedData_no_window key w :
  localStorage w = None -> getCachedData key w = (Normal VNull, w).
Proof. intros E. eff_run. reflexivity. Qed.

Lemma getCachedData_absent key w st :
  localStorage w = Some st -> st !! (CACHE_PREFIX +:+ key) = None ->
  getCachedData key w = (Normal VNull, w).
Proof. intros E L. eff_run. reflexivity. Qed.

Lemma getCachedData_empty_item key w st :
  localStorage w = Some st -> st !! (CACHE_PREFIX +:+ key) = Some "" ->
  getCachedData key w = (Normal VNull, w).
Proof. intros E L. eff_run. reflexivity. Qed.

Lemma getCachedData_unparsable key w st item :
  localStorage w = Some st -> st !! (CACHE_PREFIX +:+ key) = Some item ->
  item <> "" -> JSON_parse item = None ->
  getCachedData key w =
    (Normal VNull,
     with_log {| level := warn; message := "Error reading from cache";
                 detail := Some (SyntaxError item) |} w).
Proof.
  intros E L N P. apply String.eqb_neq in N. eff_run. reflexivity.
Qed.

Lemma getCachedData_null key w st item :
  localStorage w = Some st -> st !! (CACHE_PREFIX +:+ key) = Some item ->
  item <> "" -> JSON_parse item = Some VNull ->
  getCachedData key w =
    (Normal VNull,
     with_log {| level := warn; message := "Error reading from cache";
                 detail := Some (TypeError "Cannot destructure") |} w).
Proof.
  intros E L N P. apply String.eqb_neq in N. eff_run. reflexivity.
Qed.

Lemma getCachedData_fresh key w st item v :
  localStorage w = Some st -> st !! (CACHE_PREFIX +:+ key) = Some item ->
  item <> "" -> JSON_parse item = Some v -> v <> VNull -> v <> VUndefined ->
  (CACHE_TTL <? now w - ToNumber (Get v "timestamp"))%float = false ->
  getCachedData key w = (Normal (Get v "data"), w).
Proof.
  intros E L N P V1 V2 T. apply String.eqb_neq in N. eff_run.
  destruct v; try congruence; eff_step; reflexivity.
Qed.

Lemma getCachedData_expired key w st item v :
  localStorage w = Some st -> st !! (CACHE_PREFIX +:+ key) = Some item ->
  item <> "" -> JSON_parse item = Some v -> v <> VNull -> v <> VUndefined ->
  (CACHE_TTL <? now w - ToNumber (Get v "timestamp"))%float = true ->
  getCachedData key w =
    (Normal VNull, with_storage (delete (CACHE_PREFIX +:+ key) st) w).
Proof.
  intros E L N P V1 V2 T. apply String.eqb_neq in N. eff_run.
  destruct v; try congruence; eff_step; reflexivity.
Qed.

Lemma getAI_absent w :
  credential_absent w ->
  getAI w = (Throw missing_key_error, with_log (logged err "API Key missing" None) w).
Proof. intros [E|E]; eff_run; reflexivity. Qed.

Lemma getAI_configured w k :
  configured w k -> getAI w = (Normal k, w).
Proof.
  intros [E N]. apply String.eqb_neq in N. eff_run. reflexivity.
Qed.

Lemma refill_credential_absent key req label w :
  credential_absent w ->
  refill key req label w =
    (Normal (VArr []),
     with_log (logged err label (Some missing_key_error))
       (with_log (logged err "API Key missing" None) w)).
Proof. intros [E|E]; eff_run; reflexivity. Qed.

Lemma refill_rejected key req label w k e :
  configured w k ->
  result (backend w (calls w) (req k)) = inl e ->
  refill key req label w =
    (Normal (VArr []),
     with_log (logged err label (Some e))
       (with_call (req k) (settled_at (backend w (calls w) (req k))) w)).
Proof.
  intros [E N] R. apply String.eqb_neq in N. eff_run. reflexivity.
Qed.

Lemma refill_unparsable key req label w k text :
  configured w k ->
  result (backend w (calls w) (req k)) = inr text ->
  JSON_parse (text_or_brackets text) = None ->
  refill key req label w =
    (Normal (VArr []),
     with_log (logged err label (Some (SyntaxError (text_or_brackets text))))
       (with_call (req k) (settled_at (backend w (calls w) (req k))) w)).
Proof.
  intros [E N] R P. apply String.eqb_neq in N. eff_run. reflexivity.
Qed.

Lemma refill_stored key req label w k text data st :
  configured w k ->
  result (backend w (calls w) (req k)) = inr text ->
  JSON_parse (text_or_brackets text) = Some data ->
  localStorage w = Some st ->
  let t := settled_at (backend w (calls w) (req k)) in
  let item := JSON_stringify (envelope data t) in
  Storage_accepts st (CACHE_PREFIX +:+ key) item = true ->
  refill key req label w =
    (Normal data,
     with_storage (<[CACHE_PREFIX +:+ key := item]> st) (with_call (req k) t w)).
Proof.
  intros [E N] R P S t item A. apply String.eqb_neq in N.
  subst t item. eff_run. reflexivity.
Qed.

Lemma refill_quota_exceeded key req label w k text data st :
  configured w k ->
  result (backend w (calls w) (req k)) = inr text ->
  JSON_parse (text_or_brackets text) = Some data ->
  localStorage w = Some st ->
  let t := settled_at (backend w (calls w) (req k)) in
  Storage_accepts st (CACHE_PREFIX +:+ key) (JSON_stringify (envelope data t))
    = false ->
  refill key req label w =
    (Normal data,
     with_log (logged warn "Error writing to cache" (Some QuotaExceededError))
       (with_call (req k) t w)).
Proof.
  intros [E N] R P S t A. apply String.eqb_neq in N.
  subst t. eff_run. reflexivity.
Qed.

Lemma refill_no_window key req label w k text data :
  configured w k ->
  result (backend w (calls w) (req k)) = inr text ->
  JSON_parse (text_or_brackets text) = Some data ->
  localStorage w = None ->
  refill key req label w =
    (Normal data,
     with_call (req k) (settled_at (backend w (calls w) (req k))) w).
Proof.
  intros [E N] R P S. apply String.eqb_neq in N.
  eff_run. reflexivity.
Qed.

Lemma read_through_hit key req label w c w1 :
  getCachedData key w = (Normal c, w1) -> truthy c = true ->
  read_through key req label w = (Normal c, w1).
Proof.
  intros G T. unfold read_through, mbind, Eff_bind. rewrite G, T. reflexivity.
Qed.

Lemma read_through_miss key req label w c w1 :
  getCachedData key w = (Normal c, w1) -> truthy c = false ->
  read_through key req label w = refill key req label w1.
Proof.
  intros G T. unfold read_through, mbind, Eff_bind. rewrite G, T. reflexivity.
Qed.

Lemma Lookup_sound key w c w1 :
  Lookup key w c w1 -> getCachedData key w = (Normal c, w1).
Proof.
  destruct 1 as [S|st S L|st S L|st item S L N P|st item v S L N P V
                |st item v S L N P V1 V2 X|st item v S L N P V1 V2 X].
  - by apply getCachedData_no_window.
  - by eapply getCachedData_absent.
  - by eapply getCachedData_empty_item.
  - by eapply getCachedData_unparsable.
  - destruct V; subst v; apply String.eqb_neq in N; eff_run; reflexivity.
  - by eapply getCachedData_fresh.
  - by eapply getCachedData_expired.
Qed.

(** The lookup always returns: it never throws. *)
Lemma Lookup_total key w : exists c w1, Lookup key w c w1.
Proof.
  destruct (localStorage w) as [st|] eqn:E.
  2: { eexists _, _. by apply Lookup_no_window. }
  destruct (st !! (CACHE_PREFIX +:+ key)) as [item|] eqn:L.
  2: { eexists _, _. by eapply Lookup_absent. }
  destruct (decide (item = "")) as [->|N].
  { eexists _, _. by eapply Lookup_empty. }
  destruct (JSON_parse item) as [v|] eqn:P.
  2: { eexists _, _. by eapply Lookup_unparsable. }
  destruct (expired w v) eqn:X;
    destruct v; eexists _, _;
    first [ by eapply Lookup_undestructurable; eauto
          | by eapply Lookup_expired; eauto
          | by eapply Lookup_fresh; eauto ].
Qed.

Lemma getCachedData_Lookup key w c w1 :
  getCachedData key w = (Normal c, w1) <-> Lookup key w c w1.
Proof.
  split; [|apply Lookup_sound].
  intros G. destruct (Lookup_total key w) as (c' & w1' & L).
  pose proof (Lookup_sound _ _ _ _ L) as G'. congruence.
Qed.

Lemma getCachedData_returns key w :
  exists c w1, getCachedData key w = (Normal c, w1) /\ Lookup key w c w1.
Proof.
  destruct (Lookup_total key w) as (c & w1 & L).
  exists c, w1. split; [by apply Lookup_sound | done].
Qed.

Lemma Lookup_same_env key w c w1 : Lookup key w c w1 -> same_env w w1.
Proof. destruct 1; repeat split; reflexivity. Qed.

(** A miss stays a miss: whatever world has the store that the lookup
    left, at whatever time, the lookup misses there too. *)
Lemma Lookup_miss_again key w c w1 w' c' w1' :
  Lookup key w c w1 -> truthy c = false ->
  localStorage w' = localStorage w1 ->
  Lookup key w' c' w1' -> truthy c' = false.
Proof.
  intros L T S L'.
  destruct L; cbn [localStorage with_log with_storage] in S;
    destruct L'; try reflexivity;
    repeat match goal with
           | A : localStorage ?x = _, B : localStorage ?x = _ |- _ =>
               rewrite A in B; clear A
           end;
    simplify_eq;
    try match goal with
        | A : delete ?k ?m !! ?k = Some _ |- _ =>
            rewrite lookup_delete_eq in A; discriminate
        end;
    try congruence.
  all: repeat match goal with Hor : _ \/ _ |- _ => destruct Hor end;
    congruence.
Qed.

Lemma parsed_item_nonempty item v : JSON_parse item = Some v -> item <> "".
Proof. intros P ->. rewrite JSON_parse_empty in P. discriminate. Qed.

Lemma timestamped_is_object v t :
  Get v "timestamp" = VNum t -> v <> VNull /\ v <> VUndefined.
Proof. destruct v; simpl; intros; split; congruence. Qed.

Lemma Lookup_entry_fresh key w st payload t :
  localStorage w = Some st -> cache_entry st key payload t ->
  (CACHE_TTL <? now w - t)%float = false ->
  Lookup key w payload w.
Proof.
  intros S (item & v & L & P & D & T) X.
  destruct (timestamped_is_object _ _ T) as [V1 V2].
  rewrite <- D. eapply Lookup_fresh; eauto using parsed_item_nonempty.
  unfold expired. rewrite T. exact X.
Qed.

Lemma Lookup_entry_expired key w st payload t :
  localStorage w = Some st -> cache_entry st key payload t ->
  (CACHE_TTL <? now w - t)%float = true ->
  Lookup key w VNull (with_storage (delete (CACHE_PREFIX +:+ key) st) w).
Proof.
  intros S (item & v & L & P & D & T) X.
  destruct (timestamped_is_object _ _ T) as [V1 V2].
  eapply Lookup_expired; eauto using parsed_item_nonempty.
  unfold expired. rewrite T. exact X.
Qed.

(** The miss path invokes the backend exactly once when the credential is
    configured, however the call and the parse end. *)
Lemma refill_calls key req label w k :
  configured w k ->
  calls (refill key req label w).2 = (calls w ++ [req k])%list.
Proof.
  intros [E N]. apply String.eqb_neq in N. eff_run. eff_cases; reflexivity.
Qed.

(** The miss path writes the store at the prefixed key or not at all. *)
Lemma refill_store key req label w :
  localStorage (refill key req label w).2 = localStorage w \/
  exists st item,
    localStorage w = Some st /\
    localStorage (refill key req label w).2
      = Some (<[CACHE_PREFIX +:+ key := item]> st).
Proof.
  eff_run. eff_cases; try (left; congruence); right; eauto.
Qed.

(** A fresh entry whose payload is a list is returned as it is, and the
    world is left as it was. *)
Lemma fresh_list_entry_hit (k : Kind) (w : World)
  (st : gmap string string) (payload : list value) (t : number) :
  localStorage w = Some st ->
  cache_entry st (cacheKey k) (VArr payload) t ->
  (CACHE_TTL <? now w - t)%float = false ->
  fetch k w = (Normal (VArr payload), w).
Proof.
  intros S Hentry Hage. rewrite fetch_read_through.
  apply read_through_hit; [|reflexivity].
  apply Lookup_sound. eapply Lookup_entry_fresh; eauto.
Qed.

(** C1.  Cache hit.  For every content kind: when the store holds, under the
    key of the request, an entry whose payload is a list and whose age
    [now - timestamp] is at most [CACHE_TTL] (one hour), the operation
    returns that payload unchanged and leaves the world as it was: the backend
    is not invoked, nothing is stored and nothing is logged. *)
Theorem cache_hit_returns_payload (k : Kind) (w : World)
  (st : gmap string string) (payload : list value) (t : number) :
  localStorage w = Some st ->
  cache_entry st (cacheKey k) (VArr payload) t ->
  (now w - t <=? CACHE_TTL)%float = true ->
  fetch k w = (Normal (VArr payload), w).
Proof.
  intros S Hentry Hage.
  apply (fresh_list_entry_hit k w st payload t S Hentry).
  by apply leb_not_ltb.
Qed.

(** C2.  Expiry.  When the entry under the key of the request is older than
    [CACHE_TTL] and the credential is configured: the lookup deletes the
    entry and misses; the operation invokes the backend exactly once; and
    when the call succeeds, its text parses and the store accepts the write,
    the operation returns the new payload, and the store holds under the
    same key the envelope of the new payload and of the clock reading at
    the time of the write. *)
Theorem stale_entry_is_refetched (k : Kind) (w : World)
  (st : gmap string string) (payload : value) (t : number) (ai : string) :
  localStorage w = Some st ->
  cache_entry st (cacheKey k) payload t ->
  (CACHE_TTL <? now w - t)%float = true ->
  configured w ai ->
  let key := CACHE_PREFIX +:+ cacheKey k in
  let reply := backend w (calls w) (request k ai) in
  getCachedData (cacheKey k) w = (Normal VNull, with_storage (delete key st) w)
  /\ calls (fetch k w).2 = (calls w ++ [request k ai])%list
  /\ forall text data,
       result reply = inr text ->
       JSON_parse (text_or_brackets text) = Some data ->
       let item := JSON_stringify (envelope data (settled_at reply)) in
       Storage_accepts (delete key st) key item = true ->
       (fetch k w).1 = Normal data
       /\ localStorage (fetch k w).2 = Some (<[key := item]> st)
       /\ now (fetch k w).2 = settled_at reply.
Proof.
  intros S Hentry Hage Hai key reply.
  pose proof (Lookup_entry_expired _ _ _ _ _ S Hentry Hage) as L.
  pose proof (Lookup_sound _ _ _ _ L) as G.
  assert (Hai' : configured (with_storage (delete key st) w) ai) by exact Hai.
  rewrite fetch_read_through.
  rewrite (read_through_miss _ _ _ _ _ _ G eq_refl).
  split; [exact G|]. split.
  - by rewrite (refill_calls _ _ _ _ _ Hai').
  - intros text data R P item A.
    rewrite (refill_stored _ _ _ _ _ _ _ _ Hai' R P eq_refl A).
    cbn [fst snd localStorage with_storage with_call now].
    by rewrite insert_delete_eq.
Qed.

(** C3, as amended.  Failure.  After a miss with the credential configured,
    when the backend call is rejected or the text of the response is not
    valid JSON, the operation returns the empty list (it does not throw), the
    store is the one that the lookup left (no entry is written), and a later
    call of the operation in any world with that store misses again and
    invokes the backend. *)
Theorem failure_yields_empty_and_uncached (k : Kind) (w w1 : World)
  (c : value) (ai : string) :
  getCachedData (cacheKey k) w = (Normal c, w1) ->
  truthy c = false ->
  configured w ai ->
  backend_fails (backend w (calls w) (request k ai)) ->
  (fetch k w).1 = Normal (VArr [])
  /\ localStorage (fetch k w).2 = localStorage w1
  /\ forall w' ai',
       localStorage w' = localStorage (fetch k w).2 ->
       configured w' ai' ->
       calls (fetch k w').2 = (calls w' ++ [request k ai'])%list.
Proof.
  intros G T Hai Hfail.
  apply getCachedData_Lookup in G as L.
  destruct (Lookup_same_env _ _ _ _ L) as (En & Ek & Eb & Ec).
  assert (Hai1 : configured w1 ai) by (unfold configured; by rewrite Ek).
  assert (Hres : (fetch k w).1 = Normal (VArr []) /\
                 localStorage (fetch k w).2 = localStorage w1).
  { rewrite fetch_read_through, (read_through_miss _ _ _ _ _ _ G T).
    rewrite <- Eb, <- Ec in Hfail.
    destruct Hfail as [[e R]|(text & R & P)].
    - by rewrite (refill_rejected _ _ _ _ _ _ Hai1 R).
    - by rewrite (refill_unparsable _ _ _ _ _ _ Hai1 R P). }
  destruct Hres as [Hval Hst]. repeat split; [exact Hval|exact Hst|].
  intros w' ai' S' Hai'. rewrite Hst in S'.
  destruct (getCachedData_returns (cacheKey k) w') as (c' & w1' & G' & L').
  pose proof (Lookup_miss_again _ _ _ _ _ _ _ L T S' L') as T'.
  destruct (Lookup_same_env _ _ _ _ L') as (En' & Ek' & Eb' & Ec').
  rewrite fetch_read_through, (read_through_miss _ _ _ _ _ _ G' T').
  rewrite (refill_calls _ _ _ w1' ai'), Ec'; [done|].
  unfold configured. by rewrite Ek'.
Qed.

(** C5, as amended.  Missing credential.  After a miss, when
    [process.env.API_KEY] is absent or empty, [getAI] logs and throws, and
    the operation, which builds the client inside its [try], catches the
    error, logs it and returns the empty list; the backend is not invoked
    and nothing is stored. *)
Theorem missing_credential_yields_empty (k : Kind) (w w1 : World) (c : value) :
  getCachedData (cacheKey k) w = (Normal c, w1) ->
  truthy c = false ->
  credential_absent w ->
  (getAI w1).1 = Throw missing_key_error
  /\ fetch k w =
       (Normal (VArr []),
        with_log (logged err (error_label k) (Some missing_key_error))
          (with_log (logged err "API Key missing" None) w1))
  /\ calls (fetch k w).2 = calls w
  /\ localStorage (fetch k w).2 = localStorage w1.
Proof.
  intros G T Habs.
  apply getCachedData_Lookup in G as L.
  destruct (Lookup_same_env _ _ _ _ L) as (En & Ek & Eb & Ec).
  assert (Habs1 : credential_absent w1).
  { unfold credential_absent. by rewrite Ek. }
  split; [by rewrite (getAI_absent _ Habs1)|].
  rewrite fetch_read_through, (read_through_miss _ _ _ _ _ _ G T).
  rewrite (refill_credential_absent _ _ _ _ Habs1).
  repeat split. exact Ec.
Qed.

(** C6, as amended.  A stored text that does not parse is a miss and stays
    in the store; an entry older than [CACHE_TTL] is a miss and is removed.
    The miss of a text that is not empty and does not parse comes with a
    warning on the console, which carries the error of the parse. *)
Theorem unparsable_entry_is_kept (key : string) (w : World)
  (st : gmap string string) (item : string) :
  localStorage w = Some st ->
  st !! (CACHE_PREFIX +:+ key) = Some item ->
  (JSON_parse item = None ->
     (getCachedData key w).1 = Normal VNull
     /\ localStorage (getCachedData key w).2 = Some st)
  /\ (forall payload t,
        cache_entry st key payload t ->
        (CACHE_TTL <? now w - t)%float = true ->
        (getCachedData key w).1 = Normal VNull
        /\ localStorage (getCachedData key w).2
             = Some (delete (CACHE_PREFIX +:+ key) st))
  /\ (item <> "" -> JSON_parse item = None ->
      console (getCachedData key w).2
        = (console w ++ [read_warning (SyntaxError item)])%list).
Proof.
  intros S L. split; [|split].
  - intros P. destruct (decide (item = "")) as [->|N].
    + by rewrite (getCachedData_empty_item _ _ _ S L).
    + by rewrite (getCachedData_unparsable _ _ _ _ S L N P).
  - intros payload t Hentry Hage.
    by rewrite (Lookup_sound _ _ _ _
                  (Lookup_entry_expired _ _ _ _ _ S Hentry Hage)).
  - intros N P. by rewrite (getCachedData_unparsable _ _ _ _ S L N P).
Qed.

(** Store, then hit.  After a miss, when the call succeeds with a text that
    parses to a list, and the store accepts the write of an envelope that
    JSON reads back as written: the operation returns the list and stores its
    envelope with the clock reading; and in every world whose store holds
    that item under the key, at an age of at most [CACHE_TTL], the operation
    returns the same list and leaves the world as it was. *)
Lemma stored_list_is_hit_later (k : Kind) (w w1 : World) (c : value)
  (st1 : gmap string string) (ai : string) (text : option string)
  (payload : list value) :
  getCachedData (cacheKey k) w = (Normal c, w1) ->
  truthy c = false ->
  configured w ai ->
  localStorage w1 = Some st1 ->
  let key := CACHE_PREFIX +:+ cacheKey k in
  let reply := backend w (calls w) (request k ai) in
  let t := settled_at reply in
  let item := JSON_stringify (envelope (VArr payload) t) in
  result reply = inr text ->
  JSON_parse (text_or_brackets text) = Some (VArr payload) ->
  Storage_accepts st1 key item = true ->
  JSON_parse item = Some (envelope (VArr payload) t) ->
  fetch k w =
    (Normal (VArr payload),
     with_storage (<[key := item]> st1) (with_call (request k ai) t w1))
  /\ forall w' st',
       localStorage w' = Some st' ->
       st' !! key = Some item ->
       (now w' - t <=? CACHE_TTL)%float = true ->
       fetch k w' = (Normal (VArr payload), w').
Proof.
  intros G T Hai S1 key reply t item R P A RT.
  apply getCachedData_Lookup in G as L.
  destruct (Lookup_same_env _ _ _ _ L) as (En & Ek & Eb & Ec).
  assert (Hai1 : configured w1 ai) by (unfold configured; by rewrite Ek).
  subst item t reply key. rewrite <- Eb, <- Ec in *. split.
  - rewrite fetch_read_through, (read_through_miss _ _ _ _ _ _ G T).
    by rewrite (refill_stored _ _ _ _ _ _ _ _ Hai1 R P S1 A).
  - intros w' st' S' L' Hage.
    eapply fresh_list_entry_hit; [exact S'| |apply leb_not_ltb, Hage].
    eexists _, _. repeat split; eauto.
Qed.

(** C10.  An empty result is cached.  After a miss, when the call succeeds
    and its text is absent, empty or parses to the empty array, and the store
    accepts the write of an envelope that JSON reads back as written: the
    operation returns the empty list and stores its envelope with the clock
    reading; and in every world whose store holds that item under the key,
    at an age of at most [CACHE_TTL], the operation returns the empty list
    and leaves the world as it was, the backend not invoked. *)
Theorem empty_result_is_cached (k : Kind) (w w1 : World) (c : value)
  (st1 : gmap string string) (ai : string) (text : option string) :
  getCachedData (cacheKey k) w = (Normal c, w1) ->
  truthy c = false ->
  configured w ai ->
  localStorage w1 = Some st1 ->
  let key := CACHE_PREFIX +:+ cacheKey k in
  let reply := backend w (calls w) (request k ai) in
  let t := settled_at reply in
  let item := JSON_stringify (envelope (VArr []) t) in
  result reply = inr text ->
  text = None \/ text = Some "" \/
    JSON_parse (text_or_brackets text) = Some (VArr []) ->
  Storage_accepts st1 key item = true ->
  JSON_parse item = Some (envelope (VArr []) t) ->
  fetch k w =
    (Normal (VArr []),
     with_storage (<[key := item]> st1) (with_call (request k ai) t w1))
  /\ forall w' st',
       localStorage w' = Some st' ->
       st' !! key = Some item ->
       (now w' - t <=? CACHE_TTL)%float = true ->
       fetch k w' = (Normal (VArr []), w').
Proof.
  intros G T Hai S1 key reply t item R Htext A RT.
  assert (P : JSON_parse (text_or_brackets text) = Some (VArr [])).
  { destruct Htext as [->|[->|P]]; [apply JSON_parse_brackets ..|exact P]. }
  exact (stored_list_is_hit_later k w w1 c st1 ai text [] G T Hai S1 R P A RT).
Qed.

Lemma Lookup_frame key w c w1 st st1 other :
  Lookup key w c w1 ->
  localStorage w = Some st -> localStorage w1 = Some st1 ->
  other <> CACHE_PREFIX +:+ key ->
  st1 !! other = st !! other.
Proof.
  intros L S S1 N.
  destruct L; cbn [localStorage with_log with_storage] in S1;
    simplify_eq; try reflexivity.
  by rewrite lookup_delete_ne.
Qed.

Lemma Lookup_keeps_window key w c w1 st :
  Lookup key w c w1 -> localStorage w = Some st ->
  exists st1, localStorage w1 = Some st1.
Proof.
  intros L S.
  destruct L; cbn [localStorage with_log with_storage]; eauto.
Qed.

Lemma read_through_frame key req label w st st' other :
  localStorage w = Some st ->
  localStorage (read_through key req label w).2 = Some st' ->
  other <> CACHE_PREFIX +:+ key ->
  st' !! other = st !! other.
Proof.
  intros S S' N.
  destruct (getCachedData_returns key w) as (c & w1 & G & L).
  destruct (Lookup_keeps_window _ _ _ _ _ L S) as [st1 S1].
  pose proof (Lookup_frame _ _ _ _ _ _ _ L S S1 N) as F.
  destruct (truthy c) eqn:T.
  - rewrite (read_through_hit _ _ _ _ _ _ G T) in S'.
    cbn [snd] in S'. congruence.
  - rewrite (read_through_miss _ _ _ _ _ _ G T) in S'.
    destruct (refill_store key req label w1) as [E|(st2 & item & E2 & E)];
      rewrite E in S'.
    + congruence.
    + simplify_eq. by rewrite lookup_insert_ne.
Qed.

Lemma read_through_caches_under (k : Kind) :
  caches_under (fetch k) (cacheKey k).
Proof.
  split.
  - intros w st payload t S Hentry Hage.
    eapply fresh_list_entry_hit; eauto using leb_not_ltb.
  - intros w st st' other S S' N. rewrite fetch_read_through in S'.
    eapply read_through_frame; eauto.
Qed.

(** C7, as amended.  [fetchTrendingMoviesAI] caches under the key
    [trending_movies], and [fetchCategoryContent category] under
    [category_] followed by the category; in the store both stand behind
    [CACHE_PREFIX]. *)
Theorem trending_and_category_keys :
  caches_under fetchTrendingMoviesAI "trending_movies"
  /\ forall category : string,
       caches_under (fetchCategoryContent category) ("category_" +:+ category).
Proof.
  split.
  - exact (read_through_caches_under Trending).
  - intros category. exact (read_through_caches_under (Category category)).
Qed.

End Cache.

(** ** Query normalisation *)













Lemma trimStart_white r : all_white r = true -> trimStart r = "".
Proof.
  induction r as [|c r IH]; simpl; [reflexivity|].
  intros [Hc Hr]%andb_prop. rewrite Hc. by apply IH.
Qed.













(** ** The wider strings agree with the strings below 256 *)














(** ** The components *)

Section ComponentProperties.
Context `{Runtime}.
Import UI.

Lemma startsWith_http_not_slash p :
  startsWith p "http" = true ->
  String.eqb p "" = false /\ startsWith p "/" = false.
Proof.
  destruct p as [|c p]; [discriminate|].
  unfold startsWith. cbn [String.prefix].
  destruct (ascii_dec "h" c) as [<-|]; [|discriminate]. intros _.
  split; reflexivity.
Qed.

Lemma startsWith_slash_nonempty p :
  startsWith p "/" = true -> String.eqb p "" = false.
Proof. destruct p; [discriminate|reflexivity]. Qed.

(** C8, as amended.  The fallback chain of the images.  After the effect of
    [MovieCard] has run, the image source is: the image host followed by the
    poster path when the path starts with a slash; the poster path itself
    when it starts with [http]; and the placeholder seeded by the id of the
    movie when the path is [null], empty or of another shape.  After a load
    error the image source is that same placeholder, whatever it was before.
    The banner [Hero] follows the same chain on the backdrop path, with the
    host path [original] and its own placeholder, seeded by the id followed
    by [backdrop].  The thumbnails of the watching history do not follow the
    chain: a poster path that starts with a slash comes after the image host
    with the size [w200], every other path is taken as it is, and without a
    path the source is the empty string; there is no placeholder. *)
Theorem image_fallback_chain (movie : Movie) :
  let resolved := imgSrc (MovieCard_step movie MovieCard_initial CardEffect) in
  let thumbnail := History_thumbnail_src movie in
  let placeholder :=
    "https://picsum.photos/seed/" +:+ Number_toString (id movie) +:+ "/300/450" in
  let backdrop := bgSrc (Hero_step (Some movie) Hero_initial HeroEffect) in
  let backdrop_placeholder :=
    "https://picsum.photos/seed/" +:+ (Number_toString (id movie) +:+ "backdrop")
      +:+ "/1920/1080" in
  ((forall p, poster_path movie = Some p -> startsWith p "/" = true ->
              resolved = "https://image.tmdb.org/t/p/w500" +:+ p)
   /\ (forall p, poster_path movie = Some p -> startsWith p "http" = true ->
                 resolved = p)
   /\ (poster_path movie = None -> resolved = placeholder)
   /\ (poster_path movie = Some "" -> resolved = placeholder)
   /\ (forall p, poster_path movie = Some p -> startsWith p "/" = false ->
                 startsWith p "http" = false -> resolved = placeholder)
   /\ (forall s, imgSrc (MovieCard_step movie s CardImageError) = placeholder)
   /\ (forall s, card_img_src (MovieCard_render movie s) = imgSrc s))
  /\
  ((forall p, backdrop_path movie = Some p -> startsWith p "/" = true ->
              backdrop = "https://image.tmdb.org/t/p/original" +:+ p)
   /\ (forall p, backdrop_path movie = Some p -> startsWith p "http" = true ->
                 backdrop = p)
   /\ (backdrop_path movie = None -> backdrop = backdrop_placeholder)
   /\ (backdrop_path movie = Some "" -> backdrop = backdrop_placeholder)
   /\ (forall p, backdrop_path movie = Some p -> startsWith p "/" = false ->
                 startsWith p "http" = false -> backdrop = backdrop_placeholder)
   /\ (forall s, bgSrc (Hero_step (Some movie) s HeroImageError)
                 = backdrop_placeholder))
  /\
  ((forall p, poster_path movie = Some p -> startsWith p "/" = true ->
              thumbnail = "https://image.tmdb.org/t/p/w200" +:+ p)
   /\ (forall p, poster_path movie = Some p -> startsWith p "/" = false ->
                 thumbnail = p)
   /\ (poster_path movie = None -> thumbnail = "")).
Proof.
  cbn [MovieCard_step imgSrc Hero_step].
  unfold MovieCard_effect, handleImageError, Hero_effect, Hero_placeholder,
    History_thumbnail_src.
  split; [|split].
  - split_all.
    + intros p E S. rewrite E. cbn [path_startsWith default].
      by rewrite (startsWith_slash_nonempty p S), S.
    + intros p E S. rewrite E. cbn [path_startsWith default].
      destruct (startsWith_http_not_slash p S) as [N1 N2].
      by rewrite N1, N2, S.
    + by intros ->.
    + by intros ->.
    + intros p E S1 S2. rewrite E. cbn [path_startsWith].
      rewrite S1, S2. by rewrite !andb_false_r.
    + reflexivity.
    + reflexivity.
  - split_all.
    + intros p E S. rewrite E. cbn [path_startsWith default].
      by rewrite (startsWith_slash_nonempty p S), S.
    + intros p E S. rewrite E. cbn [path_startsWith default].
      destruct (startsWith_http_not_slash p S) as [N1 N2].
      by rewrite N1, N2, S.
    + by intros ->.
    + by intros ->.
    + intros p E S1 S2. rewrite E. cbn [path_startsWith].
      rewrite S1, S2. by rewrite !andb_false_r.
    + reflexivity.
  - split_all.
    + intros p E S. by rewrite E, S.
    + intros p E S. rewrite E, S.
      destruct (String.eqb_spec p "") as [->|N]; reflexivity.
    + by intros ->.
Qed.

(** C9, as amended.  The match label.  The hovered card shows
    [Math.round(vote_average * 10)] followed by [% Match], for every movie,
    whatever its rating: a rating of 8.7 gives 87, a tie goes up (0.25 gives
    3, -0.25 gives -2), and ratings outside of 0 to 10 go through the same
    formula (12.34 gives 123, -1 gives -10).  The banner shows the fixed text
    [98% Match] for every movie. *)
Theorem match_label_of_card_and_banner :
  (forall movie s,
     isHovered s = true ->
     card_match (MovieCard_render movie s)
       = Some [CNum (Math_round (vote_average movie * 10)%float);
               CText "% Match"])
  /\ Math_round (87 / 10 * 10)%float = 87%float
  /\ Math_round (25 / 100 * 10)%float = 3%float
  /\ Math_round (-25 / 100 * 10)%float = (-2)%float
  /\ Math_round (1234 / 100 * 10)%float = 123%float
  /\ Math_round (-1 * 10)%float = (-10)%float
  /\ (forall movie s,
        Hero_render (Some movie) s
          = HeroBanner (bgSrc s) [CText "98% Match"] (title movie)).
Proof.
  split.
  - intros movie s Hs. unfold MovieCard_render. cbn [card_match].
    by rewrite Hs.
  - repeat split; vm_compute; reflexivity.
Qed.

End ComponentProperties.

(** ** The claims on the sample worlds *)

Section Samples.
Import Reference Examples UI.

Ltac by_running := vm_compute; reflexivity.

(** C1 on a world with an entry that is a minute old. *)
Lemma cache_hit_returns_payload_witness :
  fetch Trending fresh_world = (Normal (VArr [dune]), fresh_world).
Proof.
  apply (cache_hit_returns_payload Trending fresh_world dune_store [dune] t0).
  - reflexivity.
  - exists dune_item, (envelope (VArr [dune]) t0). split_all; by_running.
  - by_running.
Defined.

(** C2 on a world whose entry is two hours old. *)
Lemma stale_entry_is_refetched_witness :
  getCachedData "trending_movies" stale_world
    = (Normal VNull, with_storage (delete trending_key dune_store) stale_world)
  /\ calls (fetch Trending stale_world).2 = [trending_request "secret"]
  /\ (fetch Trending stale_world).1 = Normal (VArr [arrival])
  /\ localStorage (fetch Trending stale_world).2
       = Some (<[trending_key := stringify (envelope (VArr [arrival]) t0_later)]>
                 dune_store)
  /\ now (fetch Trending stale_world).2 = t0_later.
Proof.
  destruct (stale_entry_is_refetched Trending stale_world dune_store
              (VArr [dune]) t0 "secret") as (G & C & S).
  - reflexivity.
  - exists dune_item, (envelope (VArr [dune]) t0). split_all; by_running.
  - by_running.
  - split; [reflexivity|discriminate].
  - destruct (S (Some (stringify (VArr [arrival]))) (VArr [arrival]))
      as (V & St & N); [by_running ..|].
    split; [exact G|]. split; [exact C|].
    split; [exact V|]. split; [exact St|exact N].
Defined.

(** C3, as amended, on a world whose backend is out of service. *)
Lemma failure_yields_empty_and_uncached_witness :
  (fetch Trending offline_world).1 = Normal (VArr [])
  /\ localStorage (fetch Trending offline_world).2 = Some ∅
  /\ calls (fetch Trending
              (browser ∅ t0_two_hours (Some "secret") rejecting)).2
       = [trending_request "secret"].
Proof.
  destruct (failure_yields_empty_and_uncached Trending offline_world
              offline_world VNull "secret") as (V & St & Again).
  - by_running.
  - reflexivity.
  - split; [reflexivity|discriminate].
  - left. exists (BackendError "503 Service Unavailable"). reflexivity.
  - split; [exact V|]. split; [exact St|].
    apply (Again (browser ∅ t0_two_hours (Some "secret") rejecting) "secret").
    + by_running.
    + split; [reflexivity|discriminate].
Defined.

(** C3 as stated fails: a text that is JSON but no list is returned as it is
    and stored. *)
Lemma object_response_is_returned_and_cached :
  result (backend object_world [] (trending_request "secret"))
    = inr (Some (stringify overloaded))
  /\ (forall items, JSON_parse (stringify overloaded) <> Some (VArr items))
  /\ (fetch Trending object_world).1 = Normal overloaded
  /\ (fetch Trending object_world).1 <> Normal (VArr [])
  /\ localStorage (fetch Trending object_world).2
       = Some {[ trending_key := stringify (envelope overloaded t0_later) ]}.
Proof.
  split_all; try by_running.
  - intros items. vm_compute. discriminate.
  - vm_compute. discriminate.
Qed.

(** C5, as amended, on a world without a credential. *)
Lemma missing_credential_yields_empty_witness :
  (getAI unconfigured_world).1 = Throw missing_key_error
  /\ (fetch Trending unconfigured_world).1 = Normal (VArr [])
  /\ calls (fetch Trending unconfigured_world).2 = [].
Proof.
  destruct (missing_credential_yields_empty Trending unconfigured_world
              unconfigured_world VNull) as (A & F & C & _).
  - by_running.
  - reflexivity.
  - left. reflexivity.
  - split; [exact A|]. split; [by rewrite F|exact C].
Defined.

(** C5 as stated fails: without a credential the operation returns the empty
    list, it does not throw. *)
Lemma missing_credential_is_not_thrown :
  credential_absent unconfigured_world
  /\ (fetch Trending unconfigured_world).1 = Normal (VArr [])
  /\ forall e, (fetch Trending unconfigured_world).1 <> Throw e.
Proof.
  split; [left; reflexivity|]. split; [by_running|].
  intros e. vm_compute. discriminate.
Qed.

(** C6, as amended, on a world with a text that is not JSON. *)
Lemma unparsable_entry_is_kept_witness :
  (getCachedData "trending_movies" broken_world).1 = Normal VNull
  /\ localStorage (getCachedData "trending_movies" broken_world).2
       = Some broken_store.
Proof.
  destruct (unparsable_entry_is_kept "trending_movies" broken_world
              broken_store "<!doctype html>") as [Kept _].
  - reflexivity.
  - by_running.
  - apply Kept. by_running.
Defined.

(** C6 as stated fails: the text that does not parse is still in the store
    after the read. *)
Lemma unparsable_entry_is_not_removed :
  broken_store !! trending_key = Some "<!doctype html>"
  /\ JSON_parse "<!doctype html>" = None
  /\ (getCachedData "trending_movies" broken_world).1 = Normal VNull
  /\ (exists st,
        localStorage (getCachedData "trending_movies" broken_world).2 = Some st
        /\ st !! trending_key = Some "<!doctype html>").
Proof.
  split_all; try by_running.
  exists broken_store. split; by_running.
Qed.

(** C7 as stated fails: an entry stored under the prefixed key [trending] is
    not what [fetchTrendingMoviesAI] reads. *)
Lemma trending_is_not_cached_under_trending :
  ~ caches_under fetchTrendingMoviesAI "trending".
Proof.
  intros [Hread _].
  assert (E : fetchTrendingMoviesAI misnamed_world
              = (Normal (VArr [dune]), misnamed_world)).
  { apply (Hread misnamed_world misnamed_store [dune] t0).
    - reflexivity.
    - exists dune_item, (envelope (VArr [dune]) t0). split_all; by_running.
    - by_running. }
  assert (C : calls (fetchTrendingMoviesAI misnamed_world).2 = [])
    by (rewrite E; reflexivity).
  vm_compute in C. discriminate.
Qed.

(** C10 on a world whose backend answers without a text, and on a world that
    holds the stored item an hour later. *)
Lemma empty_result_is_cached_witness :
  fetch Trending textless_world
    = (Normal (VArr []),
       with_storage (<[trending_key := empty_item]> ∅)
         (with_call (trending_request "secret") t0_later textless_world))
  /\ fetch Trending revisit_world = (Normal (VArr []), revisit_world).
Proof.
  destruct (empty_result_is_cached Trending textless_world textless_world
              VNull ∅ "secret" None) as [First Later].
  - by_running.
  - reflexivity.
  - split; [reflexivity|discriminate].
  - reflexivity.
  - reflexivity.
  - left. reflexivity.
  - by_running.
  - by_running.
  - split; [exact First|].
    apply (Later revisit_world {[ trending_key := empty_item ]});
      [reflexivity|by_running|by_running].
Defined.




(** C8 as stated fails: for a movie without a poster the card has the
    placeholder seeded by its id, and the thumbnail of the watching history
    has the empty string. *)
Lemma history_thumbnail_has_no_placeholder :
  poster_path (rated 8) = None
  /\ imgSrc (MovieCard_step (rated 8) MovieCard_initial CardEffect)
     = "https://picsum.photos/seed/438631/300/450"
  /\ History_thumbnail_src (rated 8) = ""
  /\ History_thumbnail_src (rated 8)
     <> "https://picsum.photos/seed/438631/300/450".
Proof.
  split_all; try by_running.
  vm_compute. discriminate.
Qed.

(** C9 as stated fails: for a rating of 8.7 the formula gives [87% Match],
    and the banner shows [98% Match]. *)
Lemma banner_ignores_rating :
  children_text [CNum (UI.Math_round (UI.vote_average (rated (87 / 10)) * 10)%float);
                 CText "% Match"] = "87% Match"
  /\ children_text
       (UI.Hero_match (UI.Hero_render (Some (rated (87 / 10))) UI.Hero_initial))
     = "98% Match"
  /\ UI.Hero_match (UI.Hero_render (Some (rated (87 / 10))) UI.Hero_initial)
     <> [CNum (UI.Math_round (UI.vote_average (rated (87 / 10)) * 10)%float);
         CText "% Match"].
Proof.
  split_all; try by_running.
  vm_compute. discriminate.
Qed.

(** The images of the specification, with the reference runtime. *)
Example poster_examples :
  let poster (p : option string) : UI.Movie :=
    {| UI.id := 438631; UI.title := "Dune"; UI.overview := "";
       UI.poster_path := p; UI.backdrop_path := None;
       UI.release_date := "2021-09-15"; UI.vote_average := 8;
       UI.genre_ids := None; UI.genres := None; UI.reason := None |} in
  UI.MovieCard_effect (poster (Some "/abc.jpg"))
    = "https://image.tmdb.org/t/p/w500/abc.jpg"
  /\ UI.MovieCard_effect (poster (Some "http://example/x.jpg"))
     = "http://example/x.jpg"
  /\ UI.MovieCard_effect (poster None)
     = "https://picsum.photos/seed/438631/300/450"
  /\ UI.MovieCard_effect (poster (Some ""))
     = "https://picsum.photos/seed/438631/300/450"
  /\ UI.MovieCard_effect (poster (Some "abc.jpg"))
     = "https://picsum.photos/seed/438631/300/450"
  /\ bgSrc (Hero_step (Some (poster None)) Hero_initial HeroEffect)
     = "https://picsum.photos/seed/438631backdrop/1920/1080".
Proof. cbv zeta. split_all; by_running. Qed.

(** A payload that is not truthy is stored and never hit: a response of
    [null] is returned and stored, and the next call within the hour calls
    the backend again. *)
Remark null_response_is_stored_and_refetched :
  let first :=
    fetch Trending (browser ∅ t0 (Some "secret") (answering (Some "null"))) in
  first.1 = Normal VNull
  /\ localStorage first.2
     = Some {[ trending_key := stringify (envelope VNull t0_later) ]}
  /\ length (calls first.2) = 1
  /\ length (calls (fetch Trending first.2).2) = 2.
Proof. cbv zeta. split_all; by_running. Qed.

(** The thumbnails of the watching history have no placeholder. *)
Remark history_thumbnail_examples :
  let poster (p : option string) : Movie :=
    {| id := 438631; title := "Dune"; overview := "";
       poster_path := p; backdrop_path := None;
       release_date := "2021-09-15"; vote_average := 8;
       genre_ids := None; genres := None; reason := None |} in
  History_thumbnail_src (poster (Some "/abc.jpg"))
    = "https://image.tmdb.org/t/p/w200/abc.jpg"
  /\ History_thumbnail_src (poster (Some "http://example/x.jpg"))
     = "http://example/x.jpg"
  /\ History_thumbnail_src (poster None) = ""
  /\ History_thumbnail_src (poster (Some "abc.jpg")) = "abc.jpg".
Proof. cbv zeta. split_all; by_running. Qed.

End Samples.

(** * Further properties of the service *)

(** ** More facts about numbers *)

Lemma SFcompare_refl (x : spec_float) :
  x <> S754_nan -> SFcompare x x = Some Eq.
Proof.
  destruct x as [s|s| |s m e]; simpl; try congruence; intros _.
  - by destruct s.
  - rewrite Z.compare_refl, Pos.compare_cont_refl. by destruct s.
Qed.

Lemma SFcompare_nan_r (x : spec_float) : SFcompare x S754_nan = None.
Proof. by destruct x. Qed.

Lemma is_nan_spec (y : number) : is_nan y = true -> Prim2SF y = S754_nan.
Proof.
  unfold is_nan. rewrite FloatAxioms.eqb_spec. unfold SFeqb. intros E.
  destruct (Prim2SF y) as [s|s| |s m e] eqn:P; [| |reflexivity|];
    rewrite SFcompare_refl in E by congruence; discriminate.
Qed.

(** An age that is not a number is not above the hour. *)
Lemma ltb_sub_nan (x y : number) :
  is_nan y = true -> (CACHE_TTL <? x - y)%float = false.
Proof.
  intros N. rewrite ltb_spec, sub_spec, (is_nan_spec y N).
  assert (E : SF64sub (Prim2SF x) S754_nan = S754_nan)
    by (by destruct (Prim2SF x)).
  rewrite E. unfold SFltb. by rewrite SFcompare_nan_r.
Qed.

(** The age of what was written at this reading of the clock is not above
    the hour, whatever the reading. *)
Lemma ltb_sub_diag (x : number) : (CACHE_TTL <? x - x)%float = false.
Proof.
  rewrite ltb_spec, sub_spec.
  assert (E : SF64sub (Prim2SF x) (Prim2SF x) = S754_nan \/
              exists s, SF64sub (Prim2SF x) (Prim2SF x) = S754_zero s).
  { destruct (Prim2SF x) as [s|s| |s m e]; unfold SF64sub, SFsub.
    - right. destruct s; eauto.
    - left. by destruct s.
    - by left.
    - right. rewrite Z.sub_diag. cbn [binary_normalize]. eauto. }
  remember (Prim2SF CACHE_TTL) as ttl eqn:T. vm_compute in T. subst ttl.
  destruct E as [->|[s ->]]; reflexivity.
Qed.

Section ServiceProperties.
Context `{Runtime}.

(** ** Outcomes and calls *)

Lemma refill_returns key req label w :
  exists v, (refill key req label w).1 = Normal v.
Proof. eff_run. eff_cases; eauto. Qed.

Lemma credential_cases w :
  credential_absent w \/ exists k, configured w k.
Proof.
  unfold credential_absent, configured.
  destruct (API_KEY w) as [k|]; [|by left; left].
  destruct (decide (k = "")) as [->|N]; [by left; right|right; eauto].
Qed.

Lemma refill_calls_cases key req label w :
  calls (refill key req label w).2 = calls w \/
  exists k, configured w k /\
            calls (refill key req label w).2 = (calls w ++ [req k])%list.
Proof.
  destruct (credential_cases w) as [A|[k C]].
  - left. by rewrite (refill_credential_absent _ _ _ _ A).
  - right. exists k. split; [exact C|by apply refill_calls].
Qed.

(** X1.  No operation throws.  In every world and for every kind, the
    operation ends normally: whatever is thrown by the client construction,
    the call, the parse or the storage is caught inside it. *)
Theorem fetch_never_throws (k : Kind) (w : World) :
  exists v, (fetch k w).1 = Normal v.
Proof.
  rewrite fetch_read_through.
  destruct (getCachedData_returns (cacheKey k) w) as (c & w1 & G & _).
  destruct (truthy c) eqn:T.
  - exists c. by rewrite (read_through_hit _ _ _ _ _ _ G T).
  - rewrite (read_through_miss _ _ _ _ _ _ G T). apply refill_returns.
Qed.

(** X2.  At most one call.  An operation leaves the record of the backend
    calls as it was, or adds to it the one request of its kind, made with the
    configured credential. *)
Theorem fetch_calls_backend_at_most_once (k : Kind) (w : World) :
  calls (fetch k w).2 = calls w \/
  exists ai, configured w ai /\
             calls (fetch k w).2 = (calls w ++ [request k ai])%list.
Proof.
  rewrite fetch_read_through.
  destruct (getCachedData_returns (cacheKey k) w) as (c & w1 & G & L).
  destruct (Lookup_same_env _ _ _ _ L) as (En & Ek & Eb & Ec).
  destruct (truthy c) eqn:T.
  - left. by rewrite (read_through_hit _ _ _ _ _ _ G T).
  - rewrite (read_through_miss _ _ _ _ _ _ G T).
    destruct (refill_calls_cases (cacheKey k) (request k) (error_label k) w1)
      as [E|(ai & C & E)]; rewrite E, Ec.
    + by left.
    + right. exists ai. split; [|reflexivity].
      unfold configured in *. by rewrite <- Ek.
Qed.

(** ** Writes: round trip, refusal, no window *)

(** X3.  Write, then read.  In a browser, when the store accepts the item and
    JSON reads the envelope back as written, [setCachedData] followed by
    [getCachedData] under the same key returns the data that was written,
    whatever the data and whatever the clock reads, and the store holds the
    item. *)
Theorem cache_round_trip (key : string) (data : value) (w : World)
  (st : gmap string string) :
  localStorage w = Some st ->
  let item := JSON_stringify (envelope data (now w)) in
  Storage_accepts st (CACHE_PREFIX +:+ key) item = true ->
  JSON_parse item = Some (envelope data (now w)) ->
  (setCachedData key data ≫= fun _ => getCachedData key) w
    = (Normal data, with_storage (<[CACHE_PREFIX +:+ key := item]> st) w).
Proof.
  intros S item A P.
  assert (Hset : setCachedData key data w
                 = (Normal tt,
                    with_storage (<[CACHE_PREFIX +:+ key := item]> st) w)).
  { subst item. eff_run. reflexivity. }
  unfold mbind at 1, Eff_bind. rewrite Hset.
  apply Lookup_sound.
  refine (Lookup_fresh key
            (with_storage (<[CACHE_PREFIX +:+ key := item]> st) w)
            (<[CACHE_PREFIX +:+ key := item]> st) item
            (envelope data (now w)) eq_refl _ _ P _ _ _).
  - apply lookup_insert_eq.
  - exact (parsed_item_nonempty _ _ P).
  - discriminate.
  - discriminate.
  - unfold expired. cbn [with_storage now Get envelope assoc].
    apply ltb_sub_diag.
Qed.

(** X4.  A refused write.  After a miss in a browser, when the call succeeds
    and its text parses but the store refuses the item, the operation still
    returns the parsed data; a warning is logged, the store is the one that
    the lookup left, and nothing else has changed but the record of the
    call and the clock. *)
Theorem refused_write_still_returns_payload (k : Kind) (w w1 : World)
  (c : value) (st1 : gmap string string) (ai : string)
  (text : option string) (data : value) :
  getCachedData (cacheKey k) w = (Normal c, w1) ->
  truthy c = false ->
  configured w ai ->
  localStorage w1 = Some st1 ->
  let reply := backend w (calls w) (request k ai) in
  result reply = inr text ->
  JSON_parse (text_or_brackets text) = Some data ->
  Storage_accepts st1 (CACHE_PREFIX +:+ cacheKey k)
    (JSON_stringify (envelope data (settled_at reply))) = false ->
  fetch k w =
    (Normal data,
     with_log (logged warn "Error writing to cache" (Some QuotaExceededError))
       (with_call (request k ai) (settled_at reply) w1)).
Proof.
  intros G T Hai S1 reply R P A.
  apply getCachedData_Lookup in G as L.
  destruct (Lookup_same_env _ _ _ _ L) as (En & Ek & Eb & Ec).
  assert (Hai1 : configured w1 ai) by (unfold configured; by rewrite Ek).
  subst reply. rewrite <- Eb, <- Ec in *.
  rewrite fetch_read_through, (read_through_miss _ _ _ _ _ _ G T).
  by rewrite (refill_quota_exceeded _ _ _ _ _ _ _ _ Hai1 R P S1 A).
Qed.

(** X5.  Without a window.  Where [window] is not defined, nothing is read
    and nothing is written: with the credential configured, the operation
    calls the backend, and returns what the text of the response parses to;
    the world has changed by the record of the call and the clock only. *)
Theorem without_window_nothing_is_cached (k : Kind) (w : World) (ai : string)
  (text : option string) (data : value) :
  localStorage w = None ->
  configured w ai ->
  let reply := backend w (calls w) (request k ai) in
  result reply = inr text ->
  JSON_parse (text_or_brackets text) = Some data ->
  fetch k w = (Normal data, with_call (request k ai) (settled_at reply) w).
Proof.
  intros S Hai reply R P.
  rewrite fetch_read_through.
  rewrite (read_through_miss _ _ _ _ _ _
             (getCachedData_no_window _ _ S) eq_refl).
  by rewrite (refill_no_window _ _ _ _ _ _ _ Hai R P S).
Qed.

(** ** Entries without an age *)

(** X6.  An entry without a timestamp never expires.  When the stored text
    parses to an object whose [data] is a list and whose [timestamp] is
    missing, or is another primitive whose numeric value is NaN (a string
    that is no number), the operation returns the list and leaves the world
    as it was, whatever the clock reads.  A timestamp that is an object or
    an array is left out: there the subtraction can throw. *)
Theorem untimed_entry_never_expires (k : Kind) (w : World)
  (st : gmap string string) (item : string) (v : value)
  (payload : list value) :
  localStorage w = Some st ->
  st !! (CACHE_PREFIX +:+ cacheKey k) = Some item ->
  JSON_parse item = Some v ->
  Get v "data" = VArr payload ->
  primitive (Get v "timestamp") = true ->
  is_nan (ToNumber (Get v "timestamp")) = true ->
  fetch k w = (Normal (VArr payload), w).
Proof.
  intros S L P D _ N.
  rewrite fetch_read_through. apply read_through_hit; [|reflexivity].
  apply Lookup_sound. rewrite <- D.
  eapply Lookup_fresh; eauto using parsed_item_nonempty.
  - intros ->. discriminate.
  - intros ->. discriminate.
  - unfold expired. by apply ltb_sub_nan.
Qed.

(** ** Keys *)

Lemma append_cancel (p a b : string) : p +:+ a = p +:+ b -> a = b.
Proof.
  induction p as [|c p IH]; [exact id|].
  change (String c (p +:+ a) = String c (p +:+ b) -> a = b).
  intros E. apply IH. congruence.
Qed.

Lemma append_head (c d : ascii) (p q a b : string) :
  String c p +:+ a = String d q +:+ b -> c = d.
Proof.
  change (String c (p +:+ a) = String d (q +:+ b) -> c = d). congruence.
Qed.

Lemma cache_keys_same_entry (k1 k2 : Kind) :
  cacheKey k1 = cacheKey k2 -> same_entry k1 k2.
Proof.
  destruct k1 as [|c1|q1], k2 as [|c2|q2]; cbn [cacheKey same_entry];
    try done; try (intros E; apply append_head in E; discriminate E);
    apply append_cancel.
Qed.

Lemma same_entry_cache_keys (k1 k2 : Kind) :
  same_entry k1 k2 -> cacheKey k1 = cacheKey k2.
Proof.
  destruct k1 as [|c1|q1], k2 as [|c2|q2]; cbn [cacheKey same_entry];
    try done; by intros ->.
Qed.

(** X7.  Which requests share an entry.  Two requests have the same cache
    key exactly when both are for the trending list, or both are for the same
    category, or both are searches whose queries are equal once in lower case
    and trimmed; a trending list, a category and a search never share a
    key. *)
Theorem cache_keys_coincide_iff (k1 k2 : Kind) :
  cacheKey k1 = cacheKey k2 <-> same_entry k1 k2.
Proof.
  split.
  - apply cache_keys_same_entry.
  - apply same_entry_cache_keys.
Qed.

Lemma fetch_keeps_window (k : Kind) (w : World) (st : gmap string string) :
  localStorage w = Some st ->
  exists st', localStorage (fetch k w).2 = Some st'.
Proof.
  intros S. rewrite fetch_read_through.
  destruct (getCachedData_returns (cacheKey k) w) as (c & w1 & G & L).
  destruct (Lookup_keeps_window _ _ _ _ _ L S) as [st1 S1].
  destruct (truthy c) eqn:T.
  - rewrite (read_through_hit _ _ _ _ _ _ G T). eauto.
  - rewrite (read_through_miss _ _ _ _ _ _ G T).
    destruct (refill_store (cacheKey k) (request k) (error_label k) w1)
      as [E|(st2 & item & _ & E)]; rewrite E; eauto.
Qed.

(** X8.  An operation writes under its own key only.  In a browser, after
    an operation the store still exists; every name other than the prefixed
    key of the request has the item it had before, and so has the key of
    every request that does not share its entry. *)
Theorem fetch_leaves_other_entries (k : Kind) (w : World)
  (st : gmap string string) :
  localStorage w = Some st ->
  exists st',
    localStorage (fetch k w).2 = Some st'
    /\ (forall other, other <> CACHE_PREFIX +:+ cacheKey k ->
                      st' !! other = st !! other)
    /\ (forall k', ~ same_entry k k' ->
                   st' !! (CACHE_PREFIX +:+ cacheKey k')
                     = st !! (CACHE_PREFIX +:+ cacheKey k')).
Proof.
  intros S. destruct (fetch_keeps_window k w st S) as [st' S'].
  exists st'. split; [exact S'|].
  assert (F : forall other, other <> CACHE_PREFIX +:+ cacheKey k ->
                            st' !! other = st !! other).
  { intros other N. rewrite fetch_read_through in S'.
    eapply read_through_frame; eauto. }
  split; [exact F|].
  intros k' N. apply F. intros E. apply N.
  apply cache_keys_same_entry. symmetry. by apply append_cancel in E.
Qed.

(** ** Operations in sequence *)

(** X9.  A repeated request is served from the cache.  After a miss, when
    the call succeeds with a text that parses to a list, and the store accepts
    the write of an envelope that JSON reads back as written: the operation
    returns the list, and a request that shares its entry (the same request,
    or a search equal up to case and outer white space), made in the world
    that the operation leaves, returns the same list and changes nothing; the
    backend has been called once in all. *)
Theorem repeated_fetch_is_served_from_cache (k k' : Kind) (w w1 : World)
  (c : value) (st1 : gmap string string) (ai : string)
  (text : option string) (payload : list value) :
  same_entry k k' ->
  getCachedData (cacheKey k) w = (Normal c, w1) ->
  truthy c = false ->
  configured w ai ->
  localStorage w1 = Some st1 ->
  let reply := backend w (calls w) (request k ai) in
  let item := JSON_stringify (envelope (VArr payload) (settled_at reply)) in
  result reply = inr text ->
  JSON_parse (text_or_brackets text) = Some (VArr payload) ->
  Storage_accepts st1 (CACHE_PREFIX +:+ cacheKey k) item = true ->
  JSON_parse item = Some (envelope (VArr payload) (settled_at reply)) ->
  (fetch k w).1 = Normal (VArr payload)
  /\ fetch k' (fetch k w).2 = (Normal (VArr payload), (fetch k w).2)
  /\ calls (fetch k w).2 = (calls w ++ [request k ai])%list.
Proof.
  intros Hsame G T Hai S1 reply item R P A RT.
  destruct (stored_list_is_hit_later k w w1 c st1 ai text payload
              G T Hai S1 R P A RT) as [F _].
  apply getCachedData_Lookup in G as L.
  destruct (Lookup_same_env _ _ _ _ L) as (_ & _ & _ & Ec).
  rewrite F. cbn [fst snd]. split; [reflexivity|]. split.
  - eapply fresh_list_entry_hit.
    + reflexivity.
    + exists item, (envelope (VArr payload) (settled_at reply)).
      rewrite <- (same_entry_cache_keys k k' Hsame).
      split; [apply lookup_insert_eq|]. by split_all.
    + cbn [with_storage with_call now]. apply ltb_sub_diag.
  - cbn [with_storage with_call calls]. by rewrite Ec.
Qed.

(** X10.  A category without a prompt of its own.  For a category other than
    [tv], [movies], [new] and [web], after a miss with the credential
    configured, [fetchCategoryContent] does not throw and calls the
    backend once, with the prompt for ten trending movies followed by the
    sentence on the image paths. *)
Theorem unknown_category_uses_default_prompt (category : string)
  (w w1 : World) (c : value) (ai : string) :
  category <> "tv" -> category <> "movies" ->
  category <> "new" -> category <> "web" ->
  getCachedData ("category_" +:+ category) w = (Normal c, w1) ->
  truthy c = false ->
  configured w ai ->
  (exists v, (fetchCategoryContent category w).1 = Normal v)
  /\ exists req,
       calls (fetchCategoryContent category w).2 = (calls w ++ [req])%list
       /\ contents req = "Generate a list of 10 trending movies. You MUST include valid TMDB poster_path and backdrop_path strings for each item."
       /\ apiKey req = ai.
Proof.
  intros N1 N2 N3 N4 G T Hai.
  apply String.eqb_neq in N1, N2, N3, N4.
  apply getCachedData_Lookup in G as L.
  destruct (Lookup_same_env _ _ _ _ L) as (_ & Ek & _ & Ec).
  assert (Hai1 : configured w1 ai) by (unfold configured; by rewrite Ek).
  change (fetchCategoryContent category) with (fetch (Category category)).
  rewrite fetch_read_through.
  apply getCachedData_Lookup in L.
  rewrite (read_through_miss _ _ _ _ _ _ L T).
  split; [apply refill_returns|].
  exists (category_request category ai).
  rewrite (refill_calls _ _ _ _ _ Hai1), Ec. split; [reflexivity|].
  split; [|reflexivity].
  cbn [category_request contents]. unfold category_prompt.
  by rewrite N1, N2, N3, N4.
Qed.

End ServiceProperties.

(** ** The chat *)

Section ChatProperties.
Import Chat.

Ltac chat_unfold :=
  unfold chatWithMovieBot, chat_try_catch, lift, sendMessage,
    console_error_value, mbind, mret, ChatEff_bind, ChatEff_ret in *;
  eff_unfold.

Ltac chat_simpl :=
  cbv beta iota zeta;
  cbn [service chat_backend chat_calls with_clock localStorage now API_KEY
       backend calls console with_log fst snd].

Ltac chat_step :=
  chat_simpl;
  repeat (match goal with
          | E : ?x = _ |- context [match ?x with _ => _ end] => rewrite E
          end; chat_simpl).

Ltac chat_cases :=
  repeat (match goal with
          | |- context [match ?x with _ => _ end] =>
              lazymatch x with
              | context [match _ with _ => _ end] => fail
              | _ => destruct x eqn:?
              end
          end; chat_simpl).

Lemma chatWithMovieBot_returns (history : list Content)
  (newMessage : string) (cw : ChatWorld) :
  exists r cw', chatWithMovieBot history newMessage cw = (Normal r, cw').
Proof. chat_unfold. chat_simpl. chat_cases; eauto. Qed.

(** X11.  The chat never throws and never touches the cache.  In every
    world, [chatWithMovieBot] ends normally; it leaves the store and the
    record of the content requests as they were, and sends at most one
    message, which carries the history and the new message as given. *)
Theorem chat_never_throws_nor_caches (history : list Content)
  (newMessage : string) (cw : ChatWorld) :
  let after := (chatWithMovieBot history newMessage cw).2 in
  (exists r, (chatWithMovieBot history newMessage cw).1 = Normal r)
  /\ localStorage (service after) = localStorage (service cw)
  /\ calls (service after) = calls (service cw)
  /\ (chat_calls after = chat_calls cw
      \/ exists ai, chat_calls after
                    = (chat_calls cw ++ [chat_request history newMessage ai])%list).
Proof.
  chat_unfold. chat_simpl. chat_cases; split_all; eauto.
Qed.

(** X12.  An answered turn.  With the credential configured, when the
    endpoint answers, [chatWithMovieBot] returns the text of the answer as
    it is (also when there is none); the request carries the model, the
    history in its order, the system instruction and the new message;
    nothing is logged, and only the clock and the record of the messages
    have changed. *)
Theorem chat_returns_the_answer (history : list Content)
  (newMessage : string) (cw : ChatWorld) (ai : string)
  (text : option string) :
  configured (service cw) ai ->
  let req := chat_request history newMessage ai in
  let reply := chat_backend cw (chat_calls cw) req in
  result reply = inr text ->
  chatWithMovieBot history newMessage cw
    = (Normal text,
       {| service := with_clock (settled_at reply) (service cw);
          chat_backend := chat_backend cw;
          chat_calls := chat_calls cw ++ [req] |})
  /\ chat_history req = history
  /\ chat_message req = newMessage.
Proof.
  intros [E N] req reply R. apply String.eqb_neq in N.
  subst reply req. split; [|split; reflexivity].
  chat_unfold. chat_step. reflexivity.
Qed.

(** X13.  A failed turn.  When the credential is absent, or the endpoint
    rejects the call, [chatWithMovieBot] returns the fixed sentence of
    apology, and the last entry of the console is the error. *)
Theorem chat_failure_returns_apology (history : list Content)
  (newMessage : string) (cw : ChatWorld) (e : error) :
  chat_fails cw history newMessage e ->
  (chatWithMovieBot history newMessage cw).1 = Normal (Some apology)
  /\ last (console (service (chatWithMovieBot history newMessage cw).2))
     = Some {| level := err; message := ""; detail := Some e |}.
Proof.
  intros [[A ->]|(ai & [E N] & R)].
  - chat_unfold.
    destruct A as [A|A]; chat_step; rewrite ?String.eqb_refl; chat_step;
      (split; [reflexivity|]); apply last_snoc.
  - apply String.eqb_neq in N. chat_unfold. chat_step.
    split; [reflexivity|]. apply last_snoc.
Qed.

End ChatProperties.

(** * Properties of the page *)

(** ** Equality of numbers *)

Lemma SFcompare_Eq_inv (x y : spec_float) :
  SFcompare x y = Some Eq ->
  (exists s s', x = S754_zero s /\ y = S754_zero s')
  \/ (x = y /\ x <> S754_nan).
Proof.
  destruct x as [sx|sx| |sx mx ex], y as [sy|sy| |sy my ey]; simpl;
    try discriminate.
  - left. eauto.
  - destruct sy; discriminate.
  - destruct sy; discriminate.
  - destruct sx; discriminate.
  - destruct sx, sy; try discriminate; right; split; congruence.
  - destruct sx; discriminate.
  - destruct sx; discriminate.
  - destruct sy; discriminate.
  - destruct sx, sy; try discriminate;
      destruct (ex ?= ey)%Z eqn:E; try discriminate;
      apply Z.compare_eq in E; subst ey;
      destruct (Pos.compare_cont Eq mx my) eqn:M; try discriminate;
      apply Pos.compare_eq in M; subst my; intros _; right;
      split; congruence.
Qed.

Lemma SFcompare_Eq_trans (x y z : spec_float) :
  SFcompare x y = Some Eq -> SFcompare y z = Some Eq ->
  SFcompare x z = Some Eq.
Proof.
  intros A B.
  destruct (SFcompare_Eq_inv x y A) as [(s & s' & -> & ->)|[-> _]];
    [|exact B].
  destruct (SFcompare_Eq_inv _ z B) as [(t & t' & _ & ->)|[<- _]];
    reflexivity.
Qed.

Lemma number_eqb_sym (x y : number) : (x =? y)%float = (y =? x)%float.
Proof.
  rewrite !FloatAxioms.eqb_spec. unfold SFeqb.
  rewrite (SFcompare_antisym (Prim2SF x) (Prim2SF y)).
  by destruct (SFcompare (Prim2SF x) (Prim2SF y)) as [[]|].
Qed.

Lemma number_eqb_trans (x y z : number) :
  (x =? y)%float = true -> (y =? z)%float = true -> (x =? z)%float = true.
Proof.
  rewrite !FloatAxioms.eqb_spec. unfold SFeqb. intros A B.
  destruct (SFcompare (Prim2SF x) (Prim2SF y)) as [[]|] eqn:E1;
    try discriminate.
  destruct (SFcompare (Prim2SF y) (Prim2SF z)) as [[]|] eqn:E2;
    try discriminate.
  by rewrite (SFcompare_Eq_trans _ _ _ E1 E2).
Qed.

Lemma number_eqb_refl (x : number) :
  is_nan x = false -> (x =? x)%float = true.
Proof. unfold is_nan. by destruct (x =? x)%float. Qed.

(** ** Lists *)

Lemma existsb_filter_out {A : Type} (p : A -> bool) (l : list A) :
  existsb p (List.filter (fun m => negb (p m)) l) = false.
Proof.
  induction l as [|a l IH]; [reflexivity|]. simpl.
  destruct (p a) eqn:E; simpl; [exact IH|]. by rewrite E.
Qed.

Lemma existsb_snoc {A : Type} (p : A -> bool) (l : list A) (x : A) :
  existsb p (l ++ [x])%list = existsb p l || p x.
Proof. rewrite existsb_app. simpl. by rewrite orb_false_r. Qed.

Lemma existsb_filter_other {A : Type} (p q : A -> bool) (l : list A) :
  (forall a, p a = true -> q a = false) ->
  existsb q (List.filter (fun m => negb (p m)) l) = existsb q l.
Proof.
  intros D. induction l as [|a l IH]; [reflexivity|]. simpl.
  destruct (p a) eqn:E; simpl; [|by rewrite IH].
  by rewrite (D a E).
Qed.

Lemma filter_filter_same {A : Type} (p : A -> bool) (l : list A) :
  List.filter p (List.filter p l) = List.filter p l.
Proof.
  induction l as [|a l IH]; [reflexivity|]. simpl.
  destruct (p a) eqn:E; simpl; [|exact IH]. by rewrite E, IH.
Qed.

Section AppProperties.
Context `{Runtime}.
Import UI Chat App Page.

(** ** Tactics for running the handlers *)

Ltac app_unfold :=
  unfold step, loadInitialData_start, loadInitialData_resume, handleScroll,
    handleCategoryChange_start, handleCategoryChange_resume, toggleFavorite,
    handlePlayMovie, handleLoginSubmit, handleLogout, handleUserIconClick,
    handleSearch_start, handleSearch_query, handleSearch_resume,
    handleVoiceSearch, recognition_onresult, recognition_onspeechend,
    recognition_onerror, handleChatSubmit_start, handleChatSubmit_resume
    in *.

Ltac app_simpl :=
  cbv beta zeta;
  cbn [fst snd
       featuredMovie categoryContent currentCategory searchResults
       searchQuery isScrolled isSearching isLoadingContent user watchHistory
       favorites showFavorites showLoginModal showProfileModal loginEmail
       loginName isListening isChatOpen chatMessages chatInput isThinking
       setFeaturedMovie setCategoryContent setCurrentCategory
       setSearchResults setSearchQuery setIsScrolled setIsSearching
       setIsLoadingContent setUser setWatchHistory setFavorites
       setShowFavorites setShowLoginModal setShowProfileModal setLoginEmail
       setLoginName setIsListening setIsChatOpen setChatMessages
       setChatInput setIsThinking] in *.

(** Case analysis on the tests of the handlers. *)
Ltac app_cases :=
  repeat (match goal with
          | |- context [match ?x with _ => _ end] =>
              lazymatch x with
              | context [match _ with _ => _ end] => fail
              | _ => destruct x eqn:?
              end
          end; app_simpl).

(** What holds at the first render and is kept by every event holds after
    every sequence of events. *)
Lemma run_invariant (P : AppState -> Prop) :
  P initial -> (forall s e, P s -> P (step s e)) ->
  forall events, P (run events).
Proof.
  intros P0 Pstep events. unfold run.
  generalize dependent initial. induction events as [|e events IH];
    intros s Ps; [exact Ps|].
  simpl. apply IH. by apply Pstep.
Qed.

(** ** Favourites *)

(** X14.  The heart of a card.  For a movie whose id is a number (not NaN),
    [toggleFavorite] turns its favourite status into the opposite one, and
    leaves the status of every id that is not [===] to it as it was. *)
Theorem toggle_favorite_flips_membership (movie : Movie) (s : AppState) :
  is_nan (id movie) = false ->
  isFavorite (id movie) (toggleFavorite movie s)
    = negb (isFavorite (id movie) s)
  /\ (forall movieId, (movieId =? id movie)%float = false ->
        isFavorite movieId (toggleFavorite movie s) = isFavorite movieId s).
Proof.
  intros N. apply number_eqb_refl in N.
  unfold isFavorite, toggleFavorite, same_id. app_simpl. split.
  - destruct (existsb _ (favorites s)) eqn:E.
    + by rewrite (existsb_filter_out (fun m => (id m =? id movie)%float)).
    + by rewrite existsb_snoc, E, N.
  - intros movieId D.
    destruct (existsb (fun m => (id m =? id movie)%float) (favorites s)).
    + apply (existsb_filter_other (fun m => (id m =? id movie)%float)).
      intros a P. destruct (id a =? movieId)%float eqn:Q; [|reflexivity].
      rewrite number_eqb_sym in Q.
      by rewrite (number_eqb_trans _ _ _ Q P) in D.
    + rewrite existsb_snoc, (number_eqb_sym (id movie) movieId), D.
      apply orb_false_r.
Qed.

(** ** The watching history *)

Lemma filter_keeps_others (featured m : Movie) (l : list Movie) :
  In m l -> same_id m featured = false ->
  In m (List.filter (fun m => negb (same_id m featured)) l).
Proof. intros I D. apply filter_In. by rewrite D. Qed.

Lemma filter_drops_same (featured : Movie) (l : list Movie) :
  Forall (fun m => same_id m featured = false)
    (List.filter (fun m => negb (same_id m featured)) l).
Proof.
  apply Forall_forall. intros m I%list_elem_of_In%filter_In.
  destruct I as [_ D]. by destruct (same_id m featured).
Qed.

(** X15.  Play.  With a featured movie, [handlePlayMovie] puts it at the
    head of the watching history and announces its title; behind the head no
    entry has its id, and every earlier entry with another id is kept.  When
    the id is a number (not NaN), playing the same movie again changes
    nothing. *)
Theorem play_moves_featured_to_front (s : AppState) (featured : Movie) :
  featuredMovie s = Some featured ->
  let s' := (handlePlayMovie s).1 in
  head (watchHistory s') = Some featured
  /\ Forall (fun m => same_id m featured = false) (tail (watchHistory s'))
  /\ (forall m, In m (watchHistory s) -> same_id m featured = false ->
                In m (watchHistory s'))
  /\ (handlePlayMovie s).2 = [Alert ("Now Playing: " +:+ title featured)]
  /\ (is_nan (id featured) = false -> (handlePlayMovie s').1 = s').
Proof.
  intros F s'. subst s'. unfold handlePlayMovie. rewrite F. app_simpl.
  rewrite F. app_simpl. split_all.
  - reflexivity.
  - apply filter_drops_same.
  - intros m I D. right. by apply filter_keeps_others.
  - reflexivity.
  - intros N%number_eqb_refl. unfold setWatchHistory. app_simpl.
    f_equal. cbn [List.filter]. unfold same_id at 1. rewrite N.
    cbn [negb]. f_equal. apply filter_filter_same.
Qed.

(** ** What every sequence of events keeps *)

Lemma distinct_ids_filter (p : Movie -> bool) (l : list Movie) :
  distinct_ids l -> distinct_ids (List.filter p l).
Proof.
  induction l as [|a l IH]; [done|]. intros [D1 D2]. simpl.
  destruct (p a); [|by apply IH]. split; [|by apply IH].
  apply Forall_forall. intros m I%list_elem_of_In%filter_In.
  destruct I as [I _]. rewrite Forall_forall in D1.
  apply D1. by apply list_elem_of_In.
Qed.

Lemma distinct_ids_snoc (movie : Movie) (l : list Movie) :
  distinct_ids l ->
  existsb (fun m => same_id m movie) l = false ->
  distinct_ids (l ++ [movie]).
Proof.
  induction l as [|a l IH]; [done|]. intros [D1 D2] E. simpl in E.
  apply orb_false_iff in E as [Ea El]. simpl. split; [|by apply IH].
  apply Forall_app. split; [exact D1|].
  apply Forall_singleton. unfold same_id in *.
  by rewrite number_eqb_sym.
Qed.

Lemma step_keeps_distinct_ids (s : AppState) (e : Event) :
  distinct_ids (favorites s) /\ distinct_ids (watchHistory s) ->
  distinct_ids (favorites (step s e)) /\ distinct_ids (watchHistory (step s e)).
Proof.
  intros [Df Dh].
  destruct e; app_unfold; app_simpl; try (split; assumption);
    try (app_cases; split; assumption).
  - split; [|exact Dh].
    destruct (existsb (fun m => same_id m movie) (favorites s)) eqn:E.
    + by apply distinct_ids_filter.
    + by apply distinct_ids_snoc.
  - destruct (featuredMovie s) as [featured|]; app_simpl;
      [|split; assumption].
    split; [exact Df|]. split.
    + apply filter_drops_same.
    + by apply distinct_ids_filter.
  - by split.
Qed.

(** X16.  Lists without repetition.  After every sequence of events, no two
    movies of the favourites have ids that are [===], and no two entries of
    the watching history have: a movie is added only when no entry has its
    id, or after the entries with its id have been removed. *)
Theorem lists_have_distinct_ids (events : list Event) :
  distinct_ids (favorites (run events))
  /\ distinct_ids (watchHistory (run events)).
Proof.
  apply (run_invariant
           (fun s => distinct_ids (favorites s)
                     /\ distinct_ids (watchHistory s))).
  - by split.
  - apply step_keeps_distinct_ids.
Qed.

(** X17.  The flags of the modals follow the user.  After every sequence of
    events, the flag of the profile is set only when a user is signed in, and
    the flag of the sign-in form only when none is: the two flags are never
    set together, and when a user signs out both are unset. *)
Theorem modal_flags_follow_the_user (events : list Event) :
  let s := run events in
  (showProfileModal s = true -> user s <> None)
  /\ (showLoginModal s = true -> user s = None)
  /\ (user s <> None ->
      showProfileModal (step s SignedOut) = false
      /\ showLoginModal (step s SignedOut) = false).
Proof.
  cbv zeta.
  assert (I : (showProfileModal (run events) = true
               -> user (run events) <> None)
              /\ (showLoginModal (run events) = true
                  -> user (run events) = None)).
  { apply (run_invariant
             (fun s => (showProfileModal s = true -> user s <> None)
                       /\ (showLoginModal s = true -> user s = None))).
    - split; discriminate.
    - intros s e [P L].
      destruct e; app_unfold; app_simpl; try (split; assumption);
        app_cases; split; try assumption; try discriminate;
        intros; try done; try congruence; naive_solver. }
  destruct I as [P L]. split_all; try assumption.
  intros U. split; [reflexivity|]. app_unfold. app_simpl.
  destruct (showLoginModal (run events)); [|reflexivity].
  by specialize (L eq_refl).
Qed.

(** ** The banner and the row *)

Lemma first_of_nonempty (movies : list Movie) :
  (0 <? length movies)%nat = true -> movies !! 0%nat <> None.
Proof. by destruct movies. Qed.

Lemma step_keeps_featured (s : AppState) (e : Event) :
  featuredMovie s <> None -> featuredMovie (step s e) <> None.
Proof.
  intros F.
  destruct e; app_unfold; app_simpl; try assumption; app_cases;
    first [assumption | discriminate | congruence
          | by apply first_of_nonempty].
Qed.

Lemma step_content (s : AppState) (e : Event) :
  categoryContent (step s e) = categoryContent s
  \/ (categoryContent (step s e) <> []
      /\ featuredMovie (step s e) = head (categoryContent (step s e))
      /\ (e = InitialDataLoaded (categoryContent (step s e))
          \/ e = CategoryLoaded (categoryContent (step s e)))).
Proof.
  destruct e; app_unfold; app_simpl; try (by left); app_cases;
    try (by left); right; (split; [by destruct movies|]);
    (split; [by rewrite head_lookup|]); auto.
Qed.

(** X18.  The banner is never emptied, and the row changes only for a list
    that is not empty.  An event leaves a featured movie in place, or
    replaces it by another one.  The content of the row changes only when an
    awaited list arrives and is not empty; the row is then that list and the
    featured movie its first element: after an empty list, which is what a
    failed operation returns, the row and the banner stay as they were.
    After every sequence of events, a row that is not empty comes with a
    featured movie. *)
Theorem featured_movie_is_never_cleared (s : AppState) (e : Event) :
  (featuredMovie s <> None -> featuredMovie (step s e) <> None)
  /\ (categoryContent (step s e) <> categoryContent s ->
      categoryContent (step s e) <> []
      /\ featuredMovie (step s e) = head (categoryContent (step s e))
      /\ (e = InitialDataLoaded (categoryContent (step s e))
          \/ e = CategoryLoaded (categoryContent (step s e))))
  /\ (forall events, categoryContent (run events) <> [] ->
                     featuredMovie (run events) <> None)
  /\ (categoryContent (step s (InitialDataLoaded [])) = categoryContent s
      /\ featuredMovie (step s (InitialDataLoaded [])) = featuredMovie s
      /\ categoryContent (step s (CategoryLoaded [])) = categoryContent s
      /\ featuredMovie (step s (CategoryLoaded [])) = featuredMovie s).
Proof.
  split; [|split; [|split]]; [| | |by split_all].
  - apply step_keeps_featured.
  - intros D. by destruct (step_content s e) as [E|C].
  - apply (run_invariant
             (fun s => categoryContent s <> [] -> featuredMovie s <> None)).
    + done.
    + intros s0 e0 I C.
      destruct (step_content s0 e0) as [E|(N & F & _)].
      * apply step_keeps_featured, I. by rewrite <- E.
      * rewrite F. by destruct (categoryContent (step s0 e0)).
Qed.

(** ** Inputs of white space *)

Lemma trimEnd_empty_white (t : string) :
  trimEnd t = "" -> all_white t = true.
Proof.
  induction t as [|c t IH]; [reflexivity|]. cbn [trimEnd all_white].
  destruct (trimEnd t); [|discriminate].
  destruct (is_white c); [|discriminate]. intros _. by rewrite IH.
Qed.

Lemma trimStart_white_inv (q : string) :
  all_white (trimStart q) = true -> all_white q = true.
Proof.
  induction q as [|c q IH]; [reflexivity|]. cbn [trimStart].
  destruct (is_white c) eqn:W; [|tauto].
  intros A. cbn [all_white]. by rewrite W, IH.
Qed.

Lemma trim_blank (q : string) : String.eqb (trim q) "" = all_white q.
Proof.
  destruct (all_white q) eqn:A.
  - unfold trim. by rewrite (trimStart_white q A).
  - apply String.eqb_neq. intros E.
    apply trimEnd_empty_white, trimStart_white_inv in E. congruence.
Qed.

(** X19.  Inputs of white space are ignored.  [handleSearch] returns before
    the search exactly when the query, which is the override when there is
    one and the text of the field otherwise, is made of white space only;
    the state is then as it was.  Every other query is passed on as it was
    typed, neither trimmed nor in lower case.  [handleChatSubmit] does the
    same with the input of the chat. *)
Theorem blank_input_is_ignored (overrideQuery : option string)
  (now : number) (s : AppState) :
  let query := handleSearch_query overrideQuery s in
  (handleSearch_start overrideQuery s = None <-> all_white query = true)
  /\ (forall q s', handleSearch_start overrideQuery s = Some (q, s') ->
                   q = query)
  /\ (all_white (searchQuery s) = true -> step s SearchSubmitted = s)
  /\ (handleChatSubmit_start now s = None
      <-> all_white (chatInput s) = true)
  /\ (forall history message s',
        handleChatSubmit_start now s = Some (history, message, s') ->
        message = chatInput s)
  /\ (all_white (chatInput s) = true -> step s (ChatSubmitted now) = s).
Proof.
  cbv zeta. split_all.
  - unfold handleSearch_start. cbv zeta. rewrite trim_blank.
    by destruct (all_white _).
  - unfold handleSearch_start. cbv zeta. intros q s'.
    destruct (String.eqb _ ""); [discriminate|]. congruence.
  - intros A. unfold step, handleSearch_start, handleSearch_query.
    cbv zeta. by rewrite trim_blank, A.
  - unfold handleChatSubmit_start. rewrite trim_blank.
    by destruct (all_white _).
  - unfold handleChatSubmit_start. intros history message s'.
    destruct (String.eqb _ ""); [discriminate|]. cbv zeta. congruence.
  - intros A. unfold step, handleChatSubmit_start.
    by rewrite trim_blank, A.
Qed.

(** ** The chat of the page *)

(** X20.  A turn of the chat.  For an input that is not white space only,
    whatever the world, a turn ends normally with two messages more on
    display: the input under the role [user], and under the role [model]
    what [chatWithMovieBot] returned for the messages displayed before and
    the input.  The field is empty and the page is not thinking any more:
    since the operation never throws, the indicator never stays. *)
Theorem chat_turn_appends_two_messages (s : AppState) (cw : ChatWorld) :
  all_white (chatInput s) = false ->
  exists responseText cw' s',
    chatWithMovieBot (map to_content (chatMessages s)) (chatInput s) cw
      = (Normal responseText, cw')
    /\ handleChatSubmit s cw = (Normal s', cw')
    /\ chatMessages s'
       = (chatMessages s
            ++ [{| msg_id := Number_toString (now (service cw));
                   msg_role := "user"; msg_text := Some (chatInput s) |};
                {| msg_id := Number_toString (now (service cw') + 1)%float;
                   msg_role := "model"; msg_text := responseText |}])%list
    /\ chatInput s' = ""
    /\ isThinking s' = false.
Proof.
  intros A.
  destruct (chatWithMovieBot_returns (map to_content (chatMessages s))
              (chatInput s) cw) as (r & cw' & E).
  exists r, cw'. destruct cw as [w b c], cw' as [w' b' c'].
  unfold handleChatSubmit, handleChatSubmit_start, handleChatSubmit_resume,
    lift, Date_now, mbind, mret, ChatEff_bind, ChatEff_ret.
  rewrite trim_blank, A.
  cbn [service chat_backend chat_calls]. cbv beta iota zeta. rewrite E.
  cbn [service chat_backend chat_calls]. cbv beta iota zeta.
  eexists. split; [reflexivity|]. split; [reflexivity|]. app_simpl.
  split; [by rewrite <- app_assoc|]. by split.
Qed.

Lemma step_chat_prefix (s : AppState) (e : Event) :
  chatMessages s `prefix_of` chatMessages (step s e).
Proof.
  destruct e; app_unfold; app_simpl; try reflexivity; app_cases;
    try reflexivity; by apply prefix_app_r.
Qed.

(** X21.  The messages of the chat only grow.  The messages on display
    after a sequence of events are still there, in their order and at the
    head of the list, after every longer sequence: no event removes or
    changes a message.  In particular the greeting stays first, and is the
    first turn of every history that is sent. *)
Theorem chat_log_only_grows (events later : list Event) :
  chatMessages (run events) `prefix_of` chatMessages (run (events ++ later)).
Proof.
  unfold run. rewrite fold_left_app.
  generalize (fold_left step events initial). intros s.
  induction later as [|e later IH] in s |- *; [reflexivity|]. simpl.
  etrans; [apply (step_chat_prefix s e)|apply IH].
Qed.

(** ** The images *)

Lemma banner_invariant (p : PageState) :
  page_reachable p ->
  forall s hs, p = (s, Some hs) ->
  match featuredMovie s with
  | None => bgSrc hs = ""
  | Some movie =>
      bgSrc hs = banner_image movie \/ bgSrc hs = Hero_placeholder movie
  end.
Proof.
  induction 1 as [|p p' R IH S].
  - intros s hs [= <- <-]. reflexivity.
  - destruct S as [s0 h e V|s0 e V|s0 hs0 e V|s0 hs0 e V F|s0 hs0];
      intros s hs [= <- <-].
    + destruct (featuredMovie (step s0 e)); [by left|reflexivity].
    + specialize (IH s0 hs0 eq_refl).
      destruct (featuredMovie (step s0 e)) as [movie|] eqn:F; [by left|].
      destruct (featuredMovie s0) eqn:F0; [|exact IH].
      destruct (step_keeps_featured s0 e); [by rewrite F0|exact F].
    + rewrite F. by apply IH.
    + specialize (IH s0 hs0 eq_refl).
      destruct (featuredMovie s0); [by right|exact IH].
Qed.

(** X22.  The banner shows the featured movie.  In every state that the
    page reaches, with the banner on display: without a featured movie the
    banner has no image and shows the loading text; with one, its image is
    the one that the effect computes from the backdrop path of that movie,
    or the placeholder of that movie.  The image of an earlier featured
    movie does not stay. *)
Theorem banner_shows_the_featured_movie (s : AppState) (hs : HeroState) :
  page_reachable (s, Some hs) ->
  match featuredMovie s with
  | None => bgSrc hs = "" /\ Hero_render None hs = HeroLoading
  | Some movie =>
      bgSrc hs = banner_image movie \/ bgSrc hs = Hero_placeholder movie
  end.
Proof.
  intros R. pose proof (banner_invariant _ R s hs eq_refl) as I.
  destruct (featuredMovie s); [exact I|by split].
Qed.

Lemma append_nonempty (c : ascii) (s t : string) : String c s +:+ t <> "".
Proof. change (String c (s +:+ t) <> ""). discriminate. Qed.

Lemma MovieCard_effect_nonempty (movie : Movie) :
  MovieCard_effect movie <> "".
Proof.
  unfold MovieCard_effect.
  destruct (path_startsWith (poster_path movie) "/");
    [apply append_nonempty|].
  destruct (path_startsWith (poster_path movie) "http") eqn:P;
    [|apply append_nonempty].
  unfold path_startsWith in P. destruct (poster_path movie) as [p|];
    [|discriminate].
  apply andb_true_iff in P as [P _]. apply negb_true_iff in P.
  by apply String.eqb_neq in P.
Qed.

Lemma card_image_cases (movie : Movie) (events : list MovieCardEvent)
  (s : MovieCardState) :
  imgSrc s = MovieCard_effect movie \/ imgSrc s = handleImageError movie ->
  imgSrc (fold_left (MovieCard_step movie) events s) = MovieCard_effect movie
  \/ imgSrc (fold_left (MovieCard_step movie) events s)
     = handleImageError movie.
Proof.
  induction events as [|e events IH] in s |- *; [tauto|].
  intros C. simpl. apply IH. destruct e; cbn; auto.
Qed.

Lemma card_image_after_error (movie : Movie) (later : list MovieCardEvent)
  (s : MovieCardState) :
  ~ In CardEffect later ->
  imgSrc s = handleImageError movie ->
  imgSrc (fold_left (MovieCard_step movie) later s) = handleImageError movie.
Proof.
  induction later as [|e later IH] in s |- *; [by intros _|].
  intros N E. simpl. apply IH; [by intros I; apply N; right|].
  destruct e; cbn; try done. destruct N. by left.
Qed.

(** X23.  The image of a card.  Once the effect of a card has run, whatever
    events follow (load errors, the pointer entering and leaving, the effect
    again), the image source is the one that the effect computes from the
    poster path or the placeholder of the movie, and never the empty
    string; and after a load error it is the placeholder until the effect
    runs again: hovering does not bring the failed image back. *)
Theorem card_image_after_mount (movie : Movie)
  (events later : list MovieCardEvent) :
  let s := MovieCard_run movie (CardEffect :: events) in
  (imgSrc s = MovieCard_effect movie \/ imgSrc s = handleImageError movie)
  /\ imgSrc s <> ""
  /\ card_img_src (MovieCard_render movie s) = imgSrc s
  /\ (~ In CardEffect later ->
      imgSrc (MovieCard_run movie
                (CardEffect :: events ++ CardImageError :: later))
        = handleImageError movie).
Proof.
  cbv zeta. unfold MovieCard_run. cbn [fold_left].
  assert (C := card_image_cases movie events
                 (MovieCard_step movie MovieCard_initial CardEffect)
                 (or_introl eq_refl)).
  split_all.
  - exact C.
  - destruct C as [-> | ->];
      [apply MovieCard_effect_nonempty|apply append_nonempty].
  - reflexivity.
  - intros N. rewrite fold_left_app. cbn [fold_left].
    by apply card_image_after_error.
Qed.

(** ** What the events leave alone *)

(** X24.  Who changes the lists.  The favourites change only when the heart
    of a card is clicked, and the watching history only on Play and on
    signing out: signing out, or in as another user, keeps the favourites.
    The record of the user never takes part: after every sequence of events
    its own favourites, history and preferences are empty. *)
Theorem lists_change_only_by_their_events (s : AppState) (e : Event) :
  (favorites (step s e) <> favorites s -> exists movie, e = FavoriteToggled movie)
  /\ (watchHistory (step s e) <> watchHistory s ->
      e = PlayClicked \/ e = SignedOut)
  /\ (forall events u, user (run events) = Some u ->
        user_favorites u = [] /\ user_history u = []
        /\ user_preferences u = []).
Proof.
  split_all.
  - destruct e; app_unfold; app_simpl; eauto; app_cases; done.
  - destruct e; app_unfold; app_simpl; auto; app_cases; done.
  - intros events.
    apply (run_invariant
             (fun s => forall u, user s = Some u ->
                user_favorites u = [] /\ user_history u = []
                /\ user_preferences u = [])).
    + discriminate.
    + intros s0 e0 I u.
      destruct e0; app_unfold; app_simpl; try apply I; app_cases;
        try apply I; try discriminate; try (by intros [= <-]);
        try (intros U; apply I; congruence).
Qed.

(** ** The tabs and the cache *)

(** X25.  The tabs have entries and prompts of their own.  Two tabs of the
    page share a cache entry only when they are the same tab, and the
    requests of two different tabs differ in their prompt; the tab [Home]
    shares its entry with the initial load, so that coming back to it within
    the hour calls nothing; and no tab gets the prompt that
    [fetchCategoryContent] keeps for a category that it does not know. *)
Theorem tabs_have_their_own_entries (c1 c2 : Category) (ai : string) :
  (same_entry (handleCategoryChange_fetch c1) (handleCategoryChange_fetch c2)
   <-> c1 = c2)
  /\ (c1 <> c2 ->
      contents (request (handleCategoryChange_fetch c1) ai)
        <> contents (request (handleCategoryChange_fetch c2) ai))
  /\ same_entry (handleCategoryChange_fetch c_home) loadInitialData_fetch
  /\ (c1 <> c_home ->
      category_prompt (category_name c1)
        <> "Generate a list of 10 trending movies.").
Proof.
  split_all.
  - destruct c1, c2; cbn; split; try done; discriminate.
  - destruct c1, c2; try done; intros _; vm_compute; discriminate.
  - done.
  - destruct c1; try done; intros _; vm_compute; discriminate.
Qed.

End AppProperties.

(** * The further properties on the samples *)

Section MoreSamples.
Import Reference Examples Examples2 UI Chat App Page.

Ltac by_running := vm_compute; reflexivity.

(** X3 on an empty store: the list is written and read back. *)
Lemma cache_round_trip_witness :
  (setCachedData "trending_movies" (VArr [dune])
     ≫= fun _ => getCachedData "trending_movies") offline_world
  = (Normal (VArr [dune]),
     with_storage
       (<[ CACHE_PREFIX +:+ "trending_movies"
           := JSON_stringify (envelope (VArr [dune]) (now offline_world)) ]> ∅)
       offline_world).
Proof.
  apply (cache_round_trip "trending_movies" (VArr [dune]) offline_world ∅);
    by_running.
Defined.

(** X4 where the storage area takes nothing. *)
Lemma refused_write_still_returns_payload_witness :
  @fetch private_runtime Trending answering_world
  = (Normal (VArr [dune]),
     with_log (logged warn "Error writing to cache" (Some QuotaExceededError))
       (with_call (request Trending "secret") t0_later answering_world)).
Proof.
  apply (refused_write_still_returns_payload (H := private_runtime)
           Trending answering_world answering_world VNull ∅ "secret"
           (Some dune_text) (VArr [dune]));
    try by_running.
  split; [reflexivity|discriminate].
Defined.

(** X5 outside a browser. *)
Lemma without_window_nothing_is_cached_witness :
  fetch (Gemini.Category "tv") server_world
  = (Normal (VArr [dune]),
     with_call (request (Gemini.Category "tv") "secret") t0_later server_world).
Proof.
  apply (without_window_nothing_is_cached (Gemini.Category "tv") server_world
           "secret" (Some dune_text) (VArr [dune]));
    try by_running.
  split; [reflexivity|discriminate].
Defined.

(** X6 on an item without a timestamp, ten years on. *)
Lemma untimed_entry_never_expires_witness :
  fetch Trending untimed_world = (Normal (VArr [dune]), untimed_world).
Proof.
  apply (untimed_entry_never_expires Trending untimed_world
           {[ trending_key := untimed_item ]} untimed_item
           (VObj [("data", VArr [dune])]) [dune]);
    by_running.
Defined.

(** X8 on a refill of the trending list. *)
Lemma fetch_leaves_other_entries_witness :
  exists st',
    localStorage (fetch Trending stale_world).2 = Some st'
    /\ (forall other, other <> CACHE_PREFIX +:+ cacheKey Trending ->
                      st' !! other = dune_store !! other)
    /\ (forall k', ~ same_entry Trending k' ->
                   st' !! (CACHE_PREFIX +:+ cacheKey k')
                     = dune_store !! (CACHE_PREFIX +:+ cacheKey k')).
Proof.
  apply (fetch_leaves_other_entries Trending stale_world dune_store).
  reflexivity.
Defined.

(** X9 on two searches that differ in case and in a trailing space. *)
Lemma repeated_fetch_is_served_from_cache_witness :
  (fetch (Search "Sad Movies ") answering_world).1 = Normal (VArr [dune])
  /\ fetch (Search "sad movies") (fetch (Search "Sad Movies ") answering_world).2
     = (Normal (VArr [dune]), (fetch (Search "Sad Movies ") answering_world).2)
  /\ calls (fetch (Search "Sad Movies ") answering_world).2
     = [request (Search "Sad Movies ") "secret"].
Proof.
  apply (repeated_fetch_is_served_from_cache
           (Search "Sad Movies ") (Search "sad movies")
           answering_world answering_world VNull ∅ "secret"
           (Some dune_text) [dune]);
    try by_running.
  split; [reflexivity|discriminate].
Defined.

(** X10 on a category that the page does not have. *)
Lemma unknown_category_uses_default_prompt_witness :
  (exists v, (fetchCategoryContent "anime" answering_world).1 = Normal v)
  /\ exists req,
       calls (fetchCategoryContent "anime" answering_world).2
         = ([] ++ [req])%list
       /\ contents req = "Generate a list of 10 trending movies. You MUST include valid TMDB poster_path and backdrop_path strings for each item."
       /\ apiKey req = "secret".
Proof.
  apply (unknown_category_uses_default_prompt "anime" answering_world
           answering_world VNull "secret");
    try discriminate; try by_running.
  split; [reflexivity|discriminate].
Defined.

(** X12 on an answered question. *)
Lemma chat_returns_the_answer_witness :
  chatWithMovieBot [greeting] "Any space films?"
    (chat_world (Some "secret") (chat_answering (Some "Try Dune.")))
  = (Normal (Some "Try Dune."),
     {| service := with_clock t0_minute (browser dune_store t0 (Some "secret") rejecting);
        chat_backend := chat_answering (Some "Try Dune.");
        chat_calls := [chat_request [greeting] "Any space films?" "secret"] |})
  /\ chat_history (chat_request [greeting] "Any space films?" "secret")
     = [greeting]
  /\ chat_message (chat_request [greeting] "Any space films?" "secret")
     = "Any space films?".
Proof.
  apply (chat_returns_the_answer [greeting] "Any space films?"
           (chat_world (Some "secret") (chat_answering (Some "Try Dune.")))
           "secret" (Some "Try Dune.")).
  - split; [reflexivity|discriminate].
  - reflexivity.
Defined.

(** X13 without a credential. *)
Lemma chat_failure_returns_apology_witness :
  (chatWithMovieBot [greeting] "Any space films?"
     (chat_world None chat_rejecting)).1 = Normal (Some apology)
  /\ last (console (service (chatWithMovieBot [greeting] "Any space films?"
                               (chat_world None chat_rejecting)).2))
     = Some {| level := err; message := ""; detail := Some missing_key_error |}.
Proof.
  apply (chat_failure_returns_apology [greeting] "Any space films?"
           (chat_world None chat_rejecting) missing_key_error).
  left. split; [left; reflexivity|reflexivity].
Defined.

(** X14 on the first render: the movie becomes a favourite. *)
Lemma toggle_favorite_flips_membership_witness :
  isFavorite (id (rated 8)) (toggleFavorite (rated 8) initial)
    = negb (isFavorite (id (rated 8)) initial)
  /\ (forall movieId, (movieId =? id (rated 8))%float = false ->
        isFavorite movieId (toggleFavorite (rated 8) initial)
          = isFavorite movieId initial).
Proof.
  apply (toggle_favorite_flips_membership (rated 8) initial). reflexivity.
Defined.

(** X15 on a page with a featured movie. *)
Lemma play_moves_featured_to_front_witness :
  head (watchHistory (handlePlayMovie featuring).1) = Some (rated 8)
  /\ Forall (fun m => same_id m (rated 8) = false)
       (tail (watchHistory (handlePlayMovie featuring).1))
  /\ (forall m, In m (watchHistory featuring) ->
                same_id m (rated 8) = false ->
                In m (watchHistory (handlePlayMovie featuring).1))
  /\ (handlePlayMovie featuring).2 = [Alert "Now Playing: Dune"]
  /\ (is_nan (id (rated 8)) = false ->
      (handlePlayMovie (handlePlayMovie featuring).1).1
        = (handlePlayMovie featuring).1).
Proof.
  apply (play_moves_featured_to_front featuring (rated 8)). reflexivity.
Defined.

(** X20 on a question typed in the chat. *)
Lemma chat_turn_appends_two_messages_witness :
  exists responseText cw' s',
    chatWithMovieBot (map to_content (chatMessages asking)) (chatInput asking)
      (chat_world (Some "secret") (chat_answering (Some "Try Dune.")))
      = (Normal responseText, cw')
    /\ handleChatSubmit asking
         (chat_world (Some "secret") (chat_answering (Some "Try Dune.")))
       = (Normal s', cw')
    /\ chatMessages s'
       = (chatMessages asking
            ++ [{| msg_id := Number_toString t0;
                   msg_role := "user"; msg_text := Some (chatInput asking) |};
                {| msg_id := Number_toString (now (service cw') + 1)%float;
                   msg_role := "model"; msg_text := responseText |}])%list
    /\ chatInput s' = ""
    /\ isThinking s' = false.
Proof.
  apply (chat_turn_appends_two_messages asking
           (chat_world (Some "secret") (chat_answering (Some "Try Dune.")))).
  reflexivity.
Defined.

(** X22 when the first list has arrived. *)
Lemma banner_shows_the_featured_movie_witness :
  bgSrc (Hero_step (Some (rated 8)) Hero_initial HeroEffect)
    = banner_image (rated 8)
  \/ bgSrc (Hero_step (Some (rated 8)) Hero_initial HeroEffect)
     = Hero_placeholder (rated 8).
Proof.
  apply (banner_shows_the_featured_movie
           (step initial (InitialDataLoaded [rated 8]))
           (Hero_step (Some (rated 8)) Hero_initial HeroEffect)).
  apply (page_next first_page).
  - apply page_first.
  - apply (page_effect initial Hero_initial (InitialDataLoaded [rated 8])).
    reflexivity.
Defined.

(** The samples run: a card that fails to load keeps the placeholder while
    the pointer moves; a favourite toggled twice is no favourite; a movie
    played twice is once in the history. *)
Example page_examples :
  imgSrc (MovieCard_run (rated 8)
            [CardEffect; CardImageError; CardMouseEnter; CardMouseLeave])
    = "https://picsum.photos/seed/438631/300/450"
  /\ favorites (run [FavoriteToggled (rated 8); FavoriteToggled (rated 9)])
     = []
  /\ watchHistory (run [CardSelected (rated 8); PlayClicked; PlayClicked])
     = [rated 8]
  /\ map msg_role
       (chatMessages (run [ChatTyped "hello"; ChatSubmitted t0;
                           ChatAnswered t0_minute None]))
     = ["model"; "user"; "model"].
Proof. split_all; by_running. Qed.

End MoreSamples.
